(** * EKS platform: declaration assembly and promotion pipeline

    A shallow embedding of the CDK application of this repository
    ([app.py], [deployment.py], [pipeline.py], [eks/eks.py]) and the
    structural properties of the configuration it declares.

    The Python constructors only register constructs in a scope, mutate
    constructs registered earlier (policies, ingress rules, bootstrap
    commands, ordering dependencies) and, once, fetch a remote JSON
    document.  They are embedded as computations of a state-and-error
    monad: the state is the scope's list of constructs in declaration
    order together with the number of remote requests made so far, the
    remote server is an oracle read by the computation, and a Python
    exception is a [Raise] result. *)

From stdpp Require Import gmap strings list fin_maps.
From Stdlib Require Import ZArith Ascii String.

Set Warnings "-register-all".
Local Open Scope Z_scope.
Local Open Scope string_scope.
Local Open Scope list_scope.

(** ** Python values, JSON documents, exceptions *)

(** The values a keyword argument can carry. *)
Inductive pyval : Type :=
  | PyNone
  | PyBool (b : bool)
  | PyInt (n : Z)
  | PyStr (s : string).

(** Python's truth value of an object ([bool(v)]). *)
Definition truthy (v : pyval) : bool :=
  match v with
  | PyNone => false
  | PyBool b => b
  | PyInt n => negb (n =? 0)%Z
  | PyStr s => negb (String.eqb s "")
  end.

(** [v is True]: identity with the singleton [True]. *)
Definition is_True (v : pyval) : bool :=
  match v with
  | PyBool true => true
  | _ => false
  end.

Inductive json : Type :=
  | JNull
  | JBool (b : bool)
  | JNum (n : Z)
  | JStr (s : string)
  | JList (l : list json)
  | JObj (fields : list (string * json)).

Inductive exn : Type :=
  | KeyError (key : string)
  | TypeError
  | RequestError
  | OSError
  | ValueError
  | RuntimeError.

Inductive result (A : Type) : Type :=
  | Ok (a : A)
  | Raise (e : exn).

Arguments Ok {A} a.
Arguments Raise {A} e.

(** Python's binary [+] on the values above. *)
Definition py_add (a b : pyval) : result pyval :=
  match a, b with
  | PyStr x, PyStr y => Ok (PyStr (x +:+ y))
  | PyInt x, PyInt y => Ok (PyInt (x + y)%Z)
  | PyInt x, PyBool y => Ok (PyInt (x + Z.b2z y)%Z)
  | PyBool x, PyInt y => Ok (PyInt (Z.b2z x + y)%Z)
  | PyBool x, PyBool y => Ok (PyInt (Z.b2z x + Z.b2z y)%Z)
  | _, _ => Raise TypeError
  end.

(** ** The assembly monad *)

(** The remote server: the body of the response to the [n]-th request,
    decoded as JSON, or [None] when the request or the decoding fails. *)
Definition oracle : Type := nat -> option json.

Definition M (S A : Type) : Type := oracle -> S -> result (A * S).

#[export] Instance M_ret {S} : MRet (M S) :=
  fun A a _ s => Ok (a, s).

#[export] Instance M_bind {S} : MBind (M S) :=
  fun A B k m o s =>
    match m o s with
    | Ok (a, s') => k a o s'
    | Raise e => Raise e
    end.

Definition raise {S A} (e : exn) : M S A := fun _ _ => Raise e.

Definition lift {S A} (r : result A) : M S A :=
  fun _ s => match r with Ok a => Ok (a, s) | Raise e => Raise e end.

Definition get {S} : M S S := fun _ s => Ok (s, s).
Definition modify {S} (f : S -> S) : M S unit := fun _ s => Ok (tt, f s).

(** [d[k]] on a dictionary. *)
Definition subscript {V} (d : gmap string V) (k : string) : result V :=
  match d !! k with
  | Some v => Ok v
  | None => Raise (KeyError k)
  end.

(** ** Constructs *)

Inductive CapacityType : Type := ON_DEMAND | SPOT.
Inductive NodegroupAmiType : Type := AL2_X86_64 | AL2_ARM_64.
Inductive EndpointAccess : Type := PUBLIC_AND_PRIVATE | PUBLIC | PRIVATE.
Inductive KubernetesVersion : Type := V1_18 | V1_19 | V1_20.
Inductive principal : Type :=
  | AccountRootPrincipal
  | ServicePrincipal (service : string).

Record Environment : Type := {
  account : string;
  region : string
}.

Record Vpc : Type := {
  vpc_id : string;
  vpc_cidr_block : string;
  subnet_groups : list string
}.

Inductive subnet_selection : Type :=
  | subnet_group_name (name : string)
  | subnet_type_PUBLIC.

Record cluster_props : Type := {
  cluster_name : string;
  cluster_vpc : string;
  vpc_subnets : list subnet_selection;
  masters_role : string;
  default_capacity : Z;
  security_group : string;
  endpoint_access : EndpointAccess;
  version : KubernetesVersion;
  (* ingress rules of the security group EKS creates for the cluster *)
  cluster_security_group_ingress : list (string * string)
}.

Record nodegroup_props : Type := {
  nodegroup_name : string;
  capacity_type : CapacityType;
  min_size : Z;
  desired_size : Z;
  max_size : Z;
  ami_type : NodegroupAmiType;
  instance_types : list string;
  node_role : string;
  subnets : subnet_selection
}.

Record helm_chart_props : Type := {
  chart : string;
  chart_version : string;
  release : string;
  repository : string;
  chart_namespace : string;
  values : json
}.

Record instance_props : Type := {
  instance_type : string;
  machine_image : string;
  instance_role : string;
  instance_vpc : string;
  instance_name : string;
  instance_subnets : subnet_selection;
  instance_security_group : string;
  block_devices : list (string * Z);
  user_data : list string
}.

Inductive body : Type :=
  | Role (assumed_by : list principal) (managed_policies : list string)
         (policy : list json)
  | SecurityGroup (vpc : string) (allow_all_outbound : bool)
                  (ingress : list (string * string))
  | Cluster (props : cluster_props)
  | Nodegroup (props : nodegroup_props)
  | KubernetesManifest (manifest : json)
  | ServiceAccount (name namespace : string) (policy : list json)
  | HelmChart (props : helm_chart_props)
  | CfnInstanceProfile (roles : list string)
  | Instance (props : instance_props)
  | CfnOutput (value description : string).

(** One node of the construct tree: its id in the scope, what it
    declares, and the constructs it was explicitly ordered after
    ([node.add_dependency]). *)
Record construct : Type := {
  node_id : string;
  node_body : body;
  node_dependencies : list string
}.

Record scope : Type := {
  constructs : list construct;
  requests_made : nat
}.

Definition empty_scope (n : nat) : scope :=
  {| constructs := []; requests_made := n |}.

(** [Construct(self, id, ...)]: a new child at the end of the scope. *)
Definition new_construct (id : string) (b : body) : M scope string :=
  _ ← modify (fun s =>
        {| constructs := constructs s ++
             [{| node_id := id; node_body := b; node_dependencies := [] |}];
           requests_made := requests_made s |});
  mret id.

(** In-place mutation of the child called [id]. *)
Definition update (id : string) (f : construct -> construct) : M scope unit :=
  modify (fun s =>
    {| constructs :=
         (fun c => if String.eqb (node_id c) id then f c else c)
           <$> constructs s;
       requests_made := requests_made s |}).

Definition with_body (f : body -> body) (c : construct) : construct :=
  {| node_id := node_id c;
     node_body := f (node_body c);
     node_dependencies := node_dependencies c |}.

(** [x.node.add_dependency(dep)] *)
Definition add_dependency (id dep : string) : M scope unit :=
  update id (fun c =>
    {| node_id := node_id c;
       node_body := node_body c;
       node_dependencies := node_dependencies c ++ [dep] |}).

(** [role.add_to_policy], [service_account.add_to_policy] and
    [service_account.add_to_principal_policy]: the list of a role or
    service account records the statements added to it, one per call and
    in the order of the calls.  The policy the library renders from them
    (it normalises the statements and drops repeated ones) is not part
    of the model. *)
Definition append_policy (stmts : list json) (b : body) : body :=
  match b with
  | Role p m pol => Role p m (pol ++ stmts)
  | ServiceAccount n ns pol => ServiceAccount n ns (pol ++ stmts)
  | _ => b
  end.

Definition add_to_policy (id : string) (stmt : json) : M scope unit :=
  update id (with_body (append_policy [stmt])).

Definition add_managed_policy (id : string) (name : string) : M scope unit :=
  update id (with_body (fun b =>
    match b with
    | Role p m pol => Role p (m ++ [name]) pol
    | _ => b
    end)).

Definition add_ingress_rule (id : string) (peer port : string) : M scope unit :=
  update id (with_body (fun b =>
    match b with
    | SecurityGroup v o ing => SecurityGroup v o (ing ++ [(peer, port)])
    | _ => b
    end)).

(** [cluster.cluster_security_group.add_ingress_rule] *)
Definition cluster_security_group_add_ingress_rule
    (id : string) (peer port : string) : M scope unit :=
  update id (with_body (fun b =>
    match b with
    | Cluster p =>
        Cluster {| cluster_name := cluster_name p;
                   cluster_vpc := cluster_vpc p;
                   vpc_subnets := vpc_subnets p;
                   masters_role := masters_role p;
                   default_capacity := default_capacity p;
                   security_group := security_group p;
                   endpoint_access := endpoint_access p;
                   version := version p;
                   cluster_security_group_ingress :=
                     cluster_security_group_ingress p ++ [(peer, port)] |}
    | _ => b
    end)).

(** [instance.user_data.add_commands] *)
Definition add_commands (id : string) (cmd : string) : M scope unit :=
  update id (with_body (fun b =>
    match b with
    | Instance p =>
        Instance {| instance_type := instance_type p;
                    machine_image := machine_image p;
                    instance_role := instance_role p;
                    instance_vpc := instance_vpc p;
                    instance_name := instance_name p;
                    instance_subnets := instance_subnets p;
                    instance_security_group := instance_security_group p;
                    block_devices := block_devices p;
                    user_data := user_data p ++ [cmd] |}
    | _ => b
    end)).

(** The methods of [eks.Cluster] used by the builder.  Each registers a
    child under the id the CDK derives from the one it is given. *)
Definition add_nodegroup_capacity (id : string) (p : nodegroup_props)
  : M scope string :=
  new_construct ("Nodegroup" +:+ id) (Nodegroup p).

Definition add_manifest (id : string) (manifest : json) : M scope string :=
  new_construct ("manifest-" +:+ id) (KubernetesManifest manifest).

Definition add_service_account (id name namespace : string) : M scope string :=
  new_construct id (ServiceAccount name namespace []).

Definition add_helm_chart (id : string) (p : helm_chart_props) : M scope string :=
  new_construct ("chart-" +:+ id) (HelmChart p).

(** [requests.get(url)] followed by [resp.json()]. *)
Definition requests_get_json (url : string) : M scope json :=
  fun o s =>
    match o (requests_made s) with
    | Some doc =>
        Ok (doc, {| constructs := constructs s;
                    requests_made := S (requests_made s) |})
    | None => Raise RequestError
    end.

(** Lookups in the produced configuration. *)
Definition find_construct (id : string) (cs : list construct) : option construct :=
  List.find (fun c => String.eqb (node_id c) id) cs.

Definition declared (id : string) (cs : list construct) : bool :=
  bool_decide (is_Some (find_construct id cs)).

Definition dependencies_of (id : string) (cs : list construct) : list string :=
  match find_construct id cs with
  | Some c => node_dependencies c
  | None => []
  end.

(** Python's [d[key]] and [for x in d] on a decoded JSON document.  A
    decoded object keeps the last value of a repeated key; iterating a
    dictionary yields its keys and iterating a string its characters. *)
Definition json_subscript (d : json) (key : string) : result json :=
  match d with
  | JObj fields =>
      match List.find (fun kv => String.eqb (fst kv) key) (rev fields) with
      | Some kv => Ok (snd kv)
      | None => Raise (KeyError key)
      end
  | _ => Raise TypeError
  end.

Definition json_iter (d : json) : result (list json) :=
  match d with
  | JList l => Ok l
  | JObj fields => Ok ((fun kv => JStr (fst kv)) <$> fields)
  | JStr s => Ok ((fun c => JStr (String c EmptyString)) <$> list_ascii_of_string s)
  | _ => Raise TypeError
  end.

(** [iam.PolicyStatement.from_json]: a statement that is not an object
    is refused with a [RuntimeError].  The library also validates the
    fields of an object and refuses some objects in the same way; that
    validation is not part of the model, which accepts every object: a
    run that succeeds in the program succeeds here, not the converse. *)
Definition PolicyStatement_from_json (stmt : json) : result json :=
  match stmt with
  | JObj _ => Ok stmt
  | _ => Raise RuntimeError
  end.

(** A [for] loop whose body runs in the monad. *)
Fixpoint for_each {S A} (l : list A) (f : A -> M S unit) : M S unit :=
  match l with
  | [] => mret tt
  | x :: l' => _ ← f x; for_each l' f
  end.

Definition nl : string := String "010"%char EmptyString.
Definition dq : string := String "034"%char EmptyString.

(** ** The cluster builder ([eks/eks.py]) *)

(* Flags const *)
Definition DEPLOY_CLUSTER_AUTOSCALER : string := "deploy_cluster_autoscaler".
Definition DEPLOY_AWS_LB_CONTROLLER : string := "deploy_alb_controller".

(* Params const list *)
Definition CLUSTER_NAME : string := "cluster_name".
Definition ENV : string := "env_name".

(* AWS LB Controller *)
Definition AWS_LB_CONTROLLER : string := "aws-load-balancer-controller".

Module PlatformEKS.

Definition flags_names : list string :=
  [DEPLOY_CLUSTER_AUTOSCALER; DEPLOY_AWS_LB_CONTROLLER].

Definition params_names : list string := [CLUSTER_NAME; ENV].

Definition _extract_params_from_kwargs (kwargs : gmap string pyval)
  : gmap string pyval :=
  foldl (fun parameters param =>
           let parameters := <[param := PyStr param]> parameters in
           match kwargs !! param with
           | Some v => <[param := v]> parameters
           | None => parameters
           end)
        ∅ params_names.

Definition _extract_flags_from_kwargs (kwargs : gmap string pyval)
  : gmap string pyval :=
  foldl (fun flags flag =>
           (* default all flags to True *)
           let flags := <[flag := PyBool true]> flags in
           match kwargs !! flag with
           | Some v => <[flag := v]> flags
           | None => flags
           end)
        ∅ flags_names.

(** The attributes of the builder that are set before any construct is
    declared. *)
Record self : Type := {
  flags : gmap string pyval;
  params : gmap string pyval;
  env : Environment;
  eks_vpc : Vpc
}.

(** Handles of the constructs the builder keeps in attributes. *)
Definition cluster_admin_role : string := "ClusterAdminRole".
Definition eks_cluster : string := "cluster".

Definition ec2_composite_principal : list principal :=
  [AccountRootPrincipal; ServicePrincipal "ec2.amazonaws.com"].

(** Returns the name of the cluster, which is what later steps read
    from [self.eks_cluster]. *)
Definition _create_eks (self : self) : M scope string :=
  (* Create IAM Role For EC2 bastion instance to be able to manage the cluster *)
  _ ← new_construct cluster_admin_role (Role ec2_composite_principal [] []);
  let cluster_admin_policy_statement_json_1 :=
    JObj [("Effect", JStr "Allow");
          ("Action", JList [JStr "eks:DescribeCluster"]);
          ("Resource", JStr "*")] in
  stmt ← lift (PolicyStatement_from_json cluster_admin_policy_statement_json_1);
  _ ← add_to_policy cluster_admin_role stmt;
  (* Create SecurityGroup for the Control Plane ENIs *)
  eks_security_group ←
    new_construct "EKSSecurityGroup"
      (SecurityGroup (vpc_id (eks_vpc self)) true []);
  _ ← add_ingress_rule eks_security_group
        (vpc_cidr_block (eks_vpc self)) "ALL TRAFFIC";
  (* Create an EKS Cluster *)
  p_cluster ← lift (subscript (params self) CLUSTER_NAME);
  prefix ← lift (py_add p_cluster (PyStr "-"));
  p_env ← lift (subscript (params self) ENV);
  name ← lift (py_add prefix p_env);
  match name with
  | PyStr name =>
      _ ← new_construct eks_cluster
            (Cluster {| cluster_name := name;
                        cluster_vpc := vpc_id (eks_vpc self);
                        vpc_subnets := [subnet_group_name "eks-control-plane"];
                        masters_role := cluster_admin_role;
                        default_capacity := 0;
                        security_group := eks_security_group;
                        endpoint_access := PRIVATE;
                        version := V1_20;
                        cluster_security_group_ingress := [] |});
      mret name
  | _ => raise TypeError
  end.

Definition required_nodegroup_managed_policy : list string :=
  ["AmazonSSMManagedInstanceCore";
   "AmazonEKSWorkerNodePolicy";
   "AmazonEKS_CNI_Policy";
   "AmazonEC2ContainerRegistryReadOnly"].

Definition _create_nodegroups (self : self) : M scope unit :=
  (* Create IAM Role For node groups *)
  od_default_ng_role ←
    new_construct "ODDefaultNGRole"
      (Role ec2_composite_principal required_nodegroup_managed_policy []);
  spot_default_ng_role ←
    new_construct "SPOTDefaultNGRole"
      (Role ec2_composite_principal required_nodegroup_managed_policy []);
  od_graviton_ng_role ←
    new_construct "ODGravitonNGRole"
      (Role ec2_composite_principal required_nodegroup_managed_policy []);
  (* On Demand subnets nodegroup *)
  _ ← add_nodegroup_capacity "ODDefaultNodegroup"
        {| nodegroup_name := "od-default-ng";
           capacity_type := ON_DEMAND;
           min_size := 0;
           desired_size := 1;
           max_size := 10;
           ami_type := AL2_X86_64;
           instance_types := ["m5.large"];
           node_role := od_default_ng_role;
           subnets := subnet_group_name "Private" |};
  (* Spot subnets nodegroup *)
  _ ← add_nodegroup_capacity "SpotDefaultNodegroup"
        {| nodegroup_name := "spot-default-ng";
           capacity_type := SPOT;
           min_size := 0;
           desired_size := 1;
           max_size := 10;
           ami_type := AL2_X86_64;
           instance_types := ["m5.large"; "c5.large"; "m4.large"; "c4.large"];
           node_role := spot_default_ng_role;
           subnets := subnet_group_name "Private" |};
  (* Graviton subnets nodegroup *)
  _ ← add_nodegroup_capacity "ODGravitonNodegroup"
        {| nodegroup_name := "od-graviton-ng";
           capacity_type := SPOT;
           min_size := 0;
           desired_size := 0;
           max_size := 10;
           ami_type := AL2_ARM_64;
           instance_types := ["m6g.large"];
           node_role := od_graviton_ng_role;
           subnets := subnet_group_name "Private" |};
  mret tt.

Definition ssm_installer_labels : json :=
  JObj [("k8s-app", JStr "ssm-installer")].

Definition ssm_agent_daemon_set : json :=
  JObj
    [("apiVersion", JStr "apps/v1");
     ("kind", JStr "DaemonSet");
     ("metadata",
      JObj [("labels", ssm_installer_labels);
            ("name", JStr "ssm-installer");
            ("namespace", JStr "kube-system")]);
     ("spec",
      JObj
        [("selector", JObj [("matchLabels", ssm_installer_labels)]);
         ("template",
          JObj
            [("metadata", JObj [("labels", ssm_installer_labels)]);
             ("spec",
              JObj
                [("containers",
                  JList
                    [JObj
                       [("image", JStr "amazonlinux");
                        ("imagePullPolicy", JStr "Always");
                        ("name", JStr "ssm");
                        ("command", JList [JStr "/bin/bash"]);
                        ("args",
                         JList
                           [JStr "-c";
                            JStr "echo '* * * * * root yum install -y https://s3.amazonaws.com/ec2-downloads-windows/SSMAgent/latest/linux_amd64/amazon-ssm-agent.rpm & rm -rf /etc/cron.d/ssmstart' > /etc/cron.d/ssmstart"]);
                        ("securityContext",
                         JObj [("allowPrivilegeEscalation", JBool true)]);
                        ("volumeMounts",
                         JList
                           [JObj [("mountPath", JStr "/etc/cron.d");
                                  ("name", JStr "cronfile")]]);
                        ("terminationMessagePath", JStr "/dev/termination-log");
                        ("terminationMessagePolicy", JStr "File")]]);
                 ("volumes",
                  JList
                    [JObj [("name", JStr "cronfile");
                           ("hostPath",
                            JObj [("path", JStr "/etc/cron.d");
                                  ("type", JStr "Directory")])]]);
                 ("dnsPolicy", JStr "ClusterFirst");
                 ("restartPolicy", JStr "Always");
                 ("schedulerName", JStr "default-scheduler");
                 ("terminationGracePeriodSeconds", JNum 30)])])])].

(** Returns the handle stored in [self.ssm_agent_manifest]. *)
Definition _deploy_ssm_agent (self : self) : M scope string :=
  add_manifest "SSMAgentManifest" ssm_agent_daemon_set.

(** The text of the priority-expander configuration. *)
Definition priorities : string :=
  "10: " +:+ nl +:+ "  - " +:+ nl +:+ "  - od*" +:+ nl +:+
  "20: " +:+ nl +:+ "  - spot*".

Definition _deploy_cluster_autoscaler
    (self : self) (cluster_name ssm_agent_manifest : string) : M scope unit :=
  let ca_sa_name := "cluster-autoscaler" in
  cluster_autoscaler_service_account ←
    add_service_account "cluster_autoscaler" ca_sa_name "kube-system";
  (* Create the PolicyStatements to attach to the role *)
  let cluster_autoscaler_policy_statement :=
    JObj [("Effect", JStr "Allow");
          ("Action",
           JList [JStr "autoscaling:DescribeAutoScalingGroups";
                  JStr "autoscaling:DescribeAutoScalingInstances";
                  JStr "autoscaling:DescribeLaunchConfigurations";
                  JStr "autoscaling:DescribeTags";
                  JStr "autoscaling:SetDesiredCapacity";
                  JStr "autoscaling:TerminateInstanceInAutoScalingGroup";
                  JStr "ec2:DescribeLaunchTemplateVersions"]);
          ("Resource", JStr "*")] in
  (* Attach the necessary permissions *)
  stmt ← lift (PolicyStatement_from_json cluster_autoscaler_policy_statement);
  _ ← add_to_policy cluster_autoscaler_service_account stmt;
  (* Set CA for priority expander *)
  _ ← add_manifest "CAPriorityExpanderConfigMap"
        (JObj [("apiVersion", JStr "v1");
               ("kind", JStr "ConfigMap");
               ("metadata",
                JObj [("name", JStr "cluster-autoscaler-priority-expander");
                      ("namespace", JStr "kube-system")]);
               ("data", JObj [("priorities", JStr priorities)])]);
  (* Install the Cluster Autoscaler *)
  cluster_autoscaler_chart ←
    add_helm_chart "cluster-autoscaler"
      {| chart := "cluster-autoscaler";
         chart_version := "9.9.2";
         release := "cluster-autoscaler";
         repository := "https://kubernetes.github.io/autoscaler";
         chart_namespace := "kube-system";
         values :=
           JObj [("autoDiscovery", JObj [("clusterName", JStr cluster_name)]);
                 ("awsRegion", JStr (region (env self)));
                 ("resources",
                  JObj [("requests",
                         JObj [("cpu", JStr "1"); ("memory", JStr "512Mi")]);
                        ("limits",
                         JObj [("cpu", JStr "1"); ("memory", JStr "512Mi")])]);
                 ("rbac",
                  JObj [("serviceAccount",
                         JObj [("create", JBool false);
                               ("name", JStr ca_sa_name)])]);
                 ("extraArgs",
                  JObj [("expander", JStr "priority");
                        ("max-node-provision-time", JStr "5m0s")]);
                 ("replicaCount", JNum 1)] |};
  add_dependency cluster_autoscaler_chart ssm_agent_manifest.

Definition iam_policy_url : string :=
  "https://raw.githubusercontent.com/kubernetes-sigs/aws-load-balancer-controller/v2.2.0/docs/install/iam_policy.json".

(** The arguments of the chart of the load-balancer controller. *)
Definition aws_lb_controller_chart_props (self : self) (cluster_name : string)
  : helm_chart_props :=
  {| chart := "aws-load-balancer-controller";
     chart_version := "1.2.3";
     release := "aws-lb-controller";
     repository := "https://aws.github.io/eks-charts";
     chart_namespace := "kube-system";
     values :=
       JObj [("clusterName", JStr cluster_name);
             ("region", JStr (region (env self)));
             ("vpcId", JStr (vpc_id (eks_vpc self)));
             ("serviceAccount",
              JObj [("create", JBool false);
                    ("name", JStr AWS_LB_CONTROLLER)]);
             ("replicaCount", JNum 2)] |}.

Definition _deploy_aws_load_balancer_controller
    (self : self) (cluster_name : string) : M scope unit :=
  aws_lb_controller_service_account ←
    add_service_account "aws-load-balancer-controller"
      AWS_LB_CONTROLLER "kube-system";
  aws_load_balancer_controller_policy ← requests_get_json iam_policy_url;
  statements ← lift (json_subscript aws_load_balancer_controller_policy "Statement");
  statements ← lift (json_iter statements);
  _ ← for_each statements (fun stmt =>
        stmt ← lift (PolicyStatement_from_json stmt);
        add_to_policy aws_lb_controller_service_account stmt);
  (* Deploy the AWS Load Balancer Controller from the AWS Helm Chart *)
  aws_lb_controller_chart ←
    add_helm_chart "aws-load-balancer-controller"
      (aws_lb_controller_chart_props self cluster_name);
  add_dependency aws_lb_controller_chart aws_lb_controller_service_account.

(** Attributes only known at deployment are kept as references to the
    construct that will provide them. *)
Definition instance_public_ip (id : string) : string :=
  "${" +:+ id +:+ ".PublicIp}".

Definition continuation_indent : string := String.concat "" (replicate 54 " ").

Definition bastion_user_data (self : self) (cluster_name : string) : list string :=
  ["yum -y install perl-Digest-SHA";
   "mkdir -p ~/.local/lib ~/.local/bin ~/.config/code-server";
   "curl -fL https://github.com/cdr/code-server/releases/download/v3.9.1/code-server-3.9.1-linux-amd64.tar.gz | tar -C ~/.local/lib -xz";
   "mv ~/.local/lib/code-server-3.9.1-linux-amd64 ~/.local/lib/code-server-3.9.1";
   "ln -s ~/.local/lib/code-server-3.9.1/bin/code-server ~/.local/bin/code-server";
   "echo " +:+ dq +:+ "bind-addr: 0.0.0.0:8080" +:+ dq +:+
     " > ~/.config/code-server/config.yaml";
   "echo " +:+ dq +:+ "auth: password" +:+ dq +:+
     " >> ~/.config/code-server/config.yaml";
   "echo " +:+ dq +:+
     "password: $(curl -s http://169.254.169.254/latest/meta-data/instance-id)"
     +:+ dq +:+ " >> ~/.config/code-server/config.yaml";
   "echo " +:+ dq +:+ "cert: false" +:+ dq +:+
     " >> ~/.config/code-server/config.yaml";
   "~/.local/bin/code-server &";
   "echo " +:+ dq +:+ "/root/.local/bin/code-server &" +:+ dq +:+
     " >> /etc/rc.d/rc.local";
   "chmod a+x /etc/rc.d/rc.local";
   "curl -o kubectl https://amazon-eks.s3.us-west-2.amazonaws.com/1.19.6/2021-01-05/bin/linux/amd64/kubectl";
   "chmod +x ./kubectl";
   "mv ./kubectl /usr/bin";
   "curl https://intoli.com/install-google-chrome.sh | bash";
   "~/.local/bin/code-server --install-extension auchenberg.vscode-browser-preview";
   "aws eks update-kubeconfig --name " +:+ cluster_name +:+
     " --region " +:+ region (env self);
   "PATH=$PATH:/usr/local/bin";
   "export KUBECONFIG=~/.kube/config";
   "curl -s https://fluxcd.io/install.sh | sudo bash";
   "echo 'PATH=$PATH:/usr/local/bin' >> ~/.bash_profile";
   "echo '. <(flux completion bash)' >> ~/.bash_profile";
   (* bootstrap flux using the bastion user-data *)
   "export GITHUB_TOKEN=$(aws --region " +:+ region (env self) +:+
     " secretsmanager get-secret-value --secret-id github-token --query 'SecretString' --output text)";
   "export GITHUB_USER=$(aws --region " +:+ region (env self) +:+
     " secretsmanager get-secret-value --secret-id github-user --query 'SecretString' --output text)";
   "KUBECONFIG=~/.kube/config flux bootstrap github " +:+
     continuation_indent +:+ "--owner=$GITHUB_USER " +:+
     continuation_indent +:+ "--repository=flux-system-eks " +:+
     continuation_indent +:+ "--path=clusters/" +:+ cluster_name +:+ " " +:+
     continuation_indent +:+ "--personal"].

Definition _deploy_bastion
    (self : self) (cluster_name ssm_agent_manifest : string) : M scope unit :=
  (* Create an Instance Profile for our Admin Role to assume w/EC2 *)
  cluster_admin_role_instance_profile ←
    new_construct "ClusterAdminRoleInstanceProfile"
      (CfnInstanceProfile [cluster_admin_role]);
  _ ← add_dependency cluster_admin_role_instance_profile cluster_admin_role;
  (* Another way into our Bastion is via Systems Manager Session Manager *)
  _ ← add_managed_policy cluster_admin_role "AmazonSSMManagedInstanceCore";
  (* policy to retrieve GitHub secrets from secretsmanager for Flux boostrap command *)
  let bastion_secrets_manager_policy :=
    JObj [("Effect", JStr "Allow");
          ("Action", JStr "secretsmanager:GetSecretValue");
          ("Resource",
           JList [JStr "arn:aws:secretsmanager:eu-west-1:*:secret:github-token*";
                  JStr "arn:aws:secretsmanager:eu-west-1:*:secret:github-user*"])] in
  stmt ← lift (PolicyStatement_from_json bastion_secrets_manager_policy);
  _ ← add_to_policy cluster_admin_role stmt;
  (* Get Latest Amazon Linux AMI *)
  let amazon_linux_2 :=
    "latest_amazon_linux(AMAZON_LINUX_2, STANDARD, HVM, GENERAL_PURPOSE)" in
  (* Create SecurityGroup for code-server *)
  bastion_security_group ←
    new_construct "BastionSecurityGroup"
      (SecurityGroup (vpc_id (eks_vpc self)) true []);
  _ ← add_ingress_rule bastion_security_group "0.0.0.0/0" "8080";
  (* Add a rule to allow our new SG to talk to the EKS control plane *)
  _ ← cluster_security_group_add_ingress_rule eks_cluster
        bastion_security_group "ALL TRAFFIC";
  (* Create our Bastion EC2 instance running CodeServer *)
  bastion ←
    new_construct "EKSBastion"
      (Instance {| instance_type := "t3.large";
                   machine_image := amazon_linux_2;
                   instance_role := cluster_admin_role;
                   instance_vpc := vpc_id (eks_vpc self);
                   instance_name := cluster_name +:+ "-bastion";
                   instance_subnets := subnet_type_PUBLIC;
                   instance_security_group := bastion_security_group;
                   block_devices := [("/dev/xvda", 20)];
                   user_data := [] |});
  (* Add UserData *)
  _ ← for_each (bastion_user_data self cluster_name) (add_commands bastion);
  (* Output the Bastion address *)
  _ ← new_construct "BastionAddress"
        (CfnOutput ("http://" +:+ instance_public_ip bastion +:+ ":8080")
                   "Address to reach your Bastion's VS Code Web UI");
  (* Wait to deploy Bastion until cluster is up and we're deploying
     manifests/charts to it *)
  add_dependency bastion ssm_agent_manifest.

Definition _deploy_addons (self : self) (cluster_name : string) : M scope unit :=
  ssm_agent_manifest ← _deploy_ssm_agent self;
  _ ← _deploy_bastion self cluster_name ssm_agent_manifest;
  flag ← lift (subscript (flags self) DEPLOY_CLUSTER_AUTOSCALER);
  _ ← (if is_True flag
       then _deploy_cluster_autoscaler self cluster_name ssm_agent_manifest
       else mret tt);
  flag ← lift (subscript (flags self) DEPLOY_AWS_LB_CONTROLLER);
  _ ← (if is_True flag
       then _deploy_aws_load_balancer_controller self cluster_name
       else mret tt);
  mret tt.

(** [PlatformEKS(scope, id, vpc=..., env=..., **kwargs)] *)
Definition __init__ (vpc : Vpc) (env : Environment) (kwargs : gmap string pyval)
  : M scope unit :=
  (* extract flags from kwargs *)
  let self := {| flags := _extract_flags_from_kwargs kwargs;
                 params := _extract_params_from_kwargs kwargs;
                 env := env;
                 eks_vpc := vpc |} in
  cluster_name ← _create_eks self;
  _ ← _create_nodegroups self;
  _deploy_addons self cluster_name.

End PlatformEKS.

(** ** The environment composer ([deployment.py]) *)

(** Runs a builder in a fresh stack and returns the constructs it
    declared; the count of remote requests carries over. *)
Definition in_stack {A} (m : M scope A) : M nat (list construct) :=
  fun o n =>
    match m o (empty_scope n) with
    | Ok (_, s) => Ok (constructs s, requests_made s)
    | Raise e => Raise e
    end.

(** Modelled from the spec: [network/infra.py] (class [PlatformNetwork])
    is imported by [deployment.py] but is not among the sources.  The
    spec says it declares one virtual network with three subnet groups,
    for control-plane, private and public placement; the group names are
    the ones the cluster builder selects.  The network's identifier and
    address block are deployment-time attributes. *)
Definition PlatformNetwork (id : string) : Vpc :=
  {| vpc_id := "${" +:+ id +:+ ".VpcId}";
     vpc_cidr_block := "${" +:+ id +:+ ".CidrBlock}";
     subnet_groups := ["eks-control-plane"; "Private"; "Public"] |}.

(** A deployable unit: a [cdk.Stage] with its two stacks. *)
Record Stage : Type := {
  stage_id : string;
  stage_env : Environment;
  stage_outdir : option string;
  Network : Vpc;
  EKS : list construct
}.

Module Platform.

Definition __name__ : string := "Platform".

(** What [__init__] hands to the cluster builder as [cluster_name]. *)
Definition cluster_name_argument (kwargs : gmap string pyval) : pyval :=
  let cluster_name := PyStr "eks" in
  match kwargs !! "cluster_name" with
  | Some v => v
  | None => cluster_name
  end.

(** The keyword arguments of the call of [PlatformEKS]. *)
Definition eks_kwargs (env_name : string) (kwargs : gmap string pyval)
  : gmap string pyval :=
  <["cluster_name" := cluster_name_argument kwargs]>
    (<["env_name" := PyStr env_name]> ∅).

(** [Platform(scope, id_, env=..., outdir=None, env_name="eks-env", **kwargs)];
    an omitted [env_name] is [None] here. *)
Definition __init__ (id_ : string) (env : Environment) (outdir : option string)
    (env_name : option string) (kwargs : gmap string pyval) : M nat Stage :=
  let env_name := default "eks-env" env_name in
  let network := PlatformNetwork "PlatformNetwork" in
  eks ← in_stack (PlatformEKS.__init__ network env (eks_kwargs env_name kwargs));
  mret {| stage_id := id_;
          stage_env := env;
          stage_outdir := outdir;
          Network := network;
          EKS := eks |}.

End Platform.

(** ** The promotion pipeline ([pipeline.py]) *)

Inductive action : Type :=
  | GitHubSourceAction (action_name oauth_token owner repo branch : string)
  | SimpleSynthAction (install_commands : list string) (synth_command : string)
  | DeployStackAction (stack : string) (prepare_run_order execute_run_order : Z)
  | ManualApprovalAction (action_name : string) (run_order : Z).

(** Python's [str] on a decoded JSON value: a string is itself; the
    text of any other value is kept as [StrOf] of that value and is not
    rendered. *)
Inductive py_text : Type :=
  | Text (s : string)
  | StrOf (v : json).

Definition py_str (v : json) : py_text :=
  match v with
  | JStr s => Text s
  | _ => StrOf v
  end.

(** A stage of the pipeline that deploys one application stage. *)
Record CdkStage : Type := {
  application : Stage;
  stage_actions : list action;
  next_run_order : Z
}.

Record CdkPipeline : Type := {
  pipeline_id : string;
  source_action : action;
  synth_action : action;
  single_publisher_per_type : bool;
  cdk_cli_version : py_text;
  stages : list CdkStage
}.

Record PipelineStack : Type := {
  pipeline_stack_id : string;
  pipeline_stack_env : Environment;
  cdk_pipeline : CdkPipeline
}.

(** [SecretValue.secrets_manager(name)], a reference resolved at
    deployment. *)
Definition secrets_manager (name : string) : string :=
  "{{resolve:secretsmanager:" +:+ name +:+ ":SecretString:::}}".

(** [pipeline.add_application_stage(stage)]: one deployment action per
    stack of the stage, in dependency order, each taking two run orders
    (prepare and execute the change set). *)
Definition stacks_of (s : Stage) : list string := ["Network"; "EKS"].

Definition add_application_stage (s : Stage) : CdkStage :=
  foldl (fun st stack =>
           {| application := application st;
              stage_actions :=
                stage_actions st ++
                [DeployStackAction stack (next_run_order st) (next_run_order st + 1)];
              next_run_order := next_run_order st + 2 |})
        {| application := s; stage_actions := []; next_run_order := 1 |}
        (stacks_of s).

Definition next_sequential_run_order (st : CdkStage) : Z * CdkStage :=
  (next_run_order st,
   {| application := application st;
      stage_actions := stage_actions st;
      next_run_order := next_run_order st + 1 |}).

Definition add_manual_approval_action
    (action_name : string) (run_order : Z) (st : CdkStage) : CdkStage :=
  {| application := application st;
     stage_actions := stage_actions st ++ [ManualApprovalAction action_name run_order];
     next_run_order := next_run_order st |}.

(** What the synthesis reads from outside the program: the process
    environment and the outcome of opening and decoding the file
    [package.json] next to [pipeline.py], which is the decoded document
    or the exception raised ([OSError] when the file cannot be opened,
    [ValueError] when it does not decode). *)
Record inputs : Type := {
  os_environ : gmap string string;
  package_json : result json
}.

Module Pipeline.

Definition _get_cdk_cli_version (i : inputs) : result py_text :=
  match package_json i with
  | Raise e => Raise e
  | Ok package_json =>
      match json_subscript package_json "devDependencies" with
      | Raise e => Raise e
      | Ok dev =>
          match json_subscript dev "aws-cdk" with
          | Raise e => Raise e
          | Ok v => Ok (py_str v)
          end
      end
  end.

Definition _add_pre_prod_stage (i : inputs) (p : CdkPipeline) : M nat CdkPipeline :=
  account ← lift (subscript (os_environ i) "CDK_DEFAULT_ACCOUNT");
  region ← lift (subscript (os_environ i) "CDK_DEFAULT_REGION");
  let pre_prod_env := {| account := account; region := region |} in
  pre_prod_platform_stage ←
    Platform.__init__ (Platform.__name__ +:+ "-PreProd") pre_prod_env None
      (Some "pre-prod") ∅;
  let pre_prod_stage := add_application_stage pre_prod_platform_stage in
  let '(run_order, pre_prod_stage) := next_sequential_run_order pre_prod_stage in
  let pre_prod_stage :=
    add_manual_approval_action "ConfirmPreProdDeployment" run_order pre_prod_stage in
  mret {| pipeline_id := pipeline_id p;
          source_action := source_action p;
          synth_action := synth_action p;
          single_publisher_per_type := single_publisher_per_type p;
          cdk_cli_version := cdk_cli_version p;
          stages := stages p ++ [pre_prod_stage] |}.

Definition _add_prod_stage (i : inputs) (p : CdkPipeline) : M nat CdkPipeline :=
  account ← lift (subscript (os_environ i) "CDK_DEFAULT_ACCOUNT");
  let prod_env := {| account := account; region := "eu-central-1" |} in
  prod_platform_stage ←
    Platform.__init__ (Platform.__name__ +:+ "-Prod") prod_env None None ∅;
  let prod_stage := add_application_stage prod_platform_stage in
  mret {| pipeline_id := pipeline_id p;
          source_action := source_action p;
          synth_action := synth_action p;
          single_publisher_per_type := single_publisher_per_type p;
          cdk_cli_version := cdk_cli_version p;
          stages := stages p ++ [prod_stage] |}.

(** [Pipeline(scope, id, env=...)] *)
Definition __init__ (i : inputs) (id : string) (env : Environment)
  : M nat PipelineStack :=
  let source_action :=
    GitHubSourceAction "GitHub"
      (secrets_manager "github-token")
      (secrets_manager "github-user")
      "eks-platform" "main" in
  let synth_action :=
    SimpleSynthAction ["pyenv local 3.7.10"; "./scripts/install-deps.sh"]
                      "npx cdk synth" in
  cli ← lift (_get_cdk_cli_version i);
  let cdk_pipeline :=
    {| pipeline_id := "EKSPlatform";
       source_action := source_action;
       synth_action := synth_action;
       single_publisher_per_type := true;
       cdk_cli_version := cli;
       stages := [] |} in
  cdk_pipeline ← _add_pre_prod_stage i cdk_pipeline;
  cdk_pipeline ← _add_prod_stage i cdk_pipeline;
  mret {| pipeline_stack_id := id;
          pipeline_stack_env := env;
          cdk_pipeline := cdk_pipeline |}.

End Pipeline.

(** ** The application ([app.py]) *)

Record Assembly : Type := {
  dev : Stage;
  pipeline : PipelineStack
}.

Definition app (i : inputs) : M nat Assembly :=
  account ← lift (subscript (os_environ i) "CDK_DEFAULT_ACCOUNT");
  region ← lift (subscript (os_environ i) "CDK_DEFAULT_REGION");
  let dev_env := {| account := account; region := region |} in
  account ← lift (subscript (os_environ i) "CDK_DEFAULT_ACCOUNT");
  region ← lift (subscript (os_environ i) "CDK_DEFAULT_REGION");
  let pipeline_env := {| account := account; region := region |} in
  dev ← Platform.__init__ (Platform.__name__ +:+ "-Dev") dev_env None
          (Some "dev") {["cluster_name" := PyStr "eks-test"]};
  pipeline ← Pipeline.__init__ i (Platform.__name__ +:+ "-Pipeline") pipeline_env;
  mret {| dev := dev; pipeline := pipeline |}.

(** One synthesis: the application run from scratch against a remote
    server. *)
Definition synth (i : inputs) (o : oracle) : result Assembly :=
  match app i o 0%nat with
  | Ok (a, _) => Ok a
  | Raise e => Raise e
  end.

(** One cluster builder run in a fresh stack. *)
Definition build_cluster (vpc : Vpc) (env : Environment)
    (kwargs : gmap string pyval) (o : oracle) : result (list construct) :=
  match in_stack (PlatformEKS.__init__ vpc env kwargs) o 0%nat with
  | Ok (cs, _) => Ok cs
  | Raise e => Raise e
  end.

(** One environment composer run. *)
Definition compose (id_ : string) (env : Environment) (outdir : option string)
    (env_name : option string) (kwargs : gmap string pyval) (o : oracle)
  : result Stage :=
  match Platform.__init__ id_ env outdir env_name kwargs o 0%nat with
  | Ok (s, _) => Ok s
  | Raise e => Raise e
  end.

(** ** Reading the produced configuration *)

(** The add-ons and the constructs each installer method declares. *)
Inductive addon : Type :=
  | AgentDaemonSet
  | Bastion
  | ClusterAutoscaler
  | LoadBalancerController.

Definition ssm_agent_manifest : string := "manifest-SSMAgentManifest".

Definition addon_constructs (a : addon) : list string :=
  match a with
  | AgentDaemonSet => [ssm_agent_manifest]
  | Bastion =>
      ["ClusterAdminRoleInstanceProfile"; "BastionSecurityGroup";
       "EKSBastion"; "BastionAddress"]
  | ClusterAutoscaler =>
      ["cluster_autoscaler"; "manifest-CAPriorityExpanderConfigMap";
       "chart-cluster-autoscaler"]
  | LoadBalancerController =>
      ["aws-load-balancer-controller"; "chart-aws-load-balancer-controller"]
  end.

(** The constructs declared before the add-on installer runs. *)
Definition cluster_builder_constructs : list string :=
  ["ClusterAdminRole"; "EKSSecurityGroup"; "cluster";
   "ODDefaultNGRole"; "SPOTDefaultNGRole"; "ODGravitonNGRole";
   "NodegroupODDefaultNodegroup"; "NodegroupSpotDefaultNodegroup";
   "NodegroupODGravitonNodegroup"].

(** Some construct of the add-on is declared. *)
Definition deployed (a : addon) (cs : list construct) : bool :=
  existsb (fun id => declared id cs) (addon_constructs a).

(** Every construct of the add-on is declared. *)
Definition fully_deployed (a : addon) (cs : list construct) : bool :=
  forallb (fun id => declared id cs) (addon_constructs a).

(** Some construct of the add-on is explicitly ordered after the agent
    daemon set. *)
Definition ordered_after_agent (a : addon) (cs : list construct) : bool :=
  existsb (fun id => bool_decide (ssm_agent_manifest ∈ dependencies_of id cs))
          (addon_constructs a).

Definition the_cluster (cs : list construct) : option cluster_props :=
  match find_construct PlatformEKS.eks_cluster cs with
  | Some {| node_body := Cluster p |} => Some p
  | _ => None
  end.

Definition nodegroups (cs : list construct) : list nodegroup_props :=
  omap (fun c => match node_body c with Nodegroup p => Some p | _ => None end) cs.

Definition nodegroup_named (name : string) (cs : list construct)
  : option nodegroup_props :=
  List.find (fun p => String.eqb (nodegroup_name p) name) (nodegroups cs).

Definition instance_shapes (p : nodegroup_props) : gset string :=
  list_to_set (instance_types p).

(** The text under [data.priorities] of the priority-expander ConfigMap. *)
Definition priority_expander_text (cs : list construct) : option string :=
  match find_construct "manifest-CAPriorityExpanderConfigMap" cs with
  | Some {| node_body := KubernetesManifest m |} =>
      match json_subscript m "data" with
      | Ok d => match json_subscript d "priorities" with
                | Ok (JStr s) => Some s
                | _ => None
                end
      | Raise _ => None
      end
  | _ => None
  end.

(** *** The priority expander's reading of its configuration

    The autoscaler decodes the text as a YAML mapping from a priority to
    a list of name patterns; among the node pools that match a pattern,
    it expands the one whose pattern sits under the highest priority.
    The reader below covers the block form the builder writes: a line
    [N:] opens priority [N], a line [- pattern] adds a pattern to the
    open priority (an empty item is the empty pattern). *)
Fixpoint lines_of (s : string) : list string :=
  match s with
  | EmptyString => [""]
  | String c s' =>
      if Ascii.eqb c "010" then "" :: lines_of s'
      else match lines_of s' with
           | l :: ls => String c l :: ls
           | [] => [String c ""]
           end
  end.

Fixpoint ltrim (s : string) : string :=
  match s with
  | String " " s' => ltrim s'
  | _ => s
  end.

Definition trim (s : string) : string :=
  String.rev (ltrim (String.rev (ltrim s))).

Definition digit (c : ascii) : option Z :=
  let n := Z.of_N (N_of_ascii c) in
  if ((48 <=? n) && (n <=? 57))%Z then Some (n - 48)%Z else None.

Fixpoint parse_digits (s : string) (acc : Z) : option Z :=
  match s with
  | EmptyString => Some acc
  | String c s' =>
      match digit c with
      | Some d => parse_digits s' (10 * acc + d)%Z
      | None => None
      end
  end.

Definition parse_priority (s : string) : option Z :=
  match s with
  | EmptyString => None
  | _ => parse_digits s 0
  end.

Inductive priority_line : Type :=
  | Blank
  | Key (priority : Z)
  | Item (pattern : string)
  | Malformed.

Definition read_line (l : string) : priority_line :=
  match trim l with
  | EmptyString => Blank
  | String "-" rest => Item (trim rest)
  | t =>
      match String.rev t with
      | String ":" k =>
          match parse_priority (trim (String.rev k)) with
          | Some n => Key n
          | None => Malformed
          end
      | _ => Malformed
      end
  end.

(** The mapping is built most recent priority first. *)
Fixpoint read_priorities (ls : list string) (acc : list (Z * list string))
  : option (list (Z * list string)) :=
  match ls with
  | [] => Some (rev acc)
  | l :: ls' =>
      match read_line l, acc with
      | Blank, _ => read_priorities ls' acc
      | Key n, _ => read_priorities ls' ((n, []) :: acc)
      | Item p, (n, ps) :: acc' => read_priorities ls' ((n, (ps ++ [p])%list) :: acc')
      | Item _, [] => None
      | Malformed, _ => None
      end
  end.

Definition parse_priorities (text : string) : option (list (Z * list string)) :=
  read_priorities (lines_of text) [].

(** The priority under which a pattern is listed. *)
Definition priority_of (pattern : string) (text : string) : option Z :=
  match parse_priorities text with
  | Some m =>
      fst <$> List.find (fun e => bool_decide (pattern ∈ snd e)) m
  | None => None
  end.

(** The expander picks the first pattern over the second. *)
Definition prefers (p1 p2 : string) (text : string) : bool :=
  match priority_of p1 text, priority_of p2 text with
  | Some a, Some b => (b <? a)%Z
  | _, _ => false
  end.

(** *** The declared order of the pipeline *)

Inductive step : Type :=
  | SourceTrigger (name : string)
  | Synthesis (command : string)
  | Deployment (stage stack : string)
  | ManualApproval (name : string).

Definition step_of (stage : string) (a : action) : step :=
  match a with
  | GitHubSourceAction n _ _ _ _ => SourceTrigger n
  | SimpleSynthAction _ c => Synthesis c
  | DeployStackAction s _ _ => Deployment stage s
  | ManualApprovalAction n _ => ManualApproval n
  end.

(** The run order an action occupies last inside its stage. *)
Definition run_order_of (a : action) : Z :=
  match a with
  | DeployStackAction _ _ e => e
  | ManualApprovalAction _ r => r
  | _ => 1
  end.

Definition declared_order (p : CdkPipeline) : list step :=
  step_of "Source" (source_action p) ::
  step_of "Build" (synth_action p) ::
  (st ← stages p;
   step_of (stage_id (application st)) <$> stage_actions st).

(** ** Auxiliary definitions for the proofs *)

Definition is_object (v : json) : bool :=
  match v with JObj _ => true | _ => false end.

(** The statements the load-balancer installer iterates over. *)
Definition statements_of (doc : json) : result (list json) :=
  match json_subscript doc "Statement" with
  | Ok st => json_iter st
  | Raise e => Raise e
  end.

(** The net effect of attaching a list of statements to [id]. *)
Definition attach (id : string) (stmts : list json) (s : scope) : scope :=
  {| constructs :=
       (fun c => if String.eqb (node_id c) id
                 then with_body (append_policy stmts) c else c) <$> constructs s;
     requests_made := requests_made s |}.

(** The load-balancer installer once the remote document has been read
    and found to hold the statements [stmts]. *)
Definition lb_install (self : PlatformEKS.self) (name : string)
    (stmts : list json) : M scope unit :=
  sa ← add_service_account "aws-load-balancer-controller"
         AWS_LB_CONTROLLER "kube-system";
  _ ← modify (fun s => {| constructs := constructs s;
                          requests_made := S (requests_made s) |});
  _ ← modify (attach sa stmts);
  chart ← add_helm_chart "aws-load-balancer-controller"
            (PlatformEKS.aws_lb_controller_chart_props self name);
  add_dependency chart sa.

(** The builder with its two parameters [a] and [b] given as strings,
    its two flags decided, and the statements of the remote document at
    hand: no dictionary and no oracle is consulted any more. *)
Definition canonical_self (vpc : Vpc) (env : Environment) (a b : string)
  : PlatformEKS.self :=
  {| PlatformEKS.flags := ∅;
     PlatformEKS.params := {[ CLUSTER_NAME := PyStr a; ENV := PyStr b ]};
     PlatformEKS.env := env;
     PlatformEKS.eks_vpc := vpc |}.

Definition declarations (vpc : Vpc) (env : Environment) (a b : string)
    (ca lb : bool) (stmts : list json) : M scope unit :=
  let self := canonical_self vpc env a b in
  name ← PlatformEKS._create_eks self;
  _ ← PlatformEKS._create_nodegroups self;
  ssm ← PlatformEKS._deploy_ssm_agent self;
  _ ← PlatformEKS._deploy_bastion self name ssm;
  _ ← (if ca then PlatformEKS._deploy_cluster_autoscaler self name ssm
       else mret tt);
  if lb then lb_install self name stmts else mret tt.

Definition configuration (vpc : Vpc) (env : Environment) (a b : string)
    (ca lb : bool) (stmts : list json) : list construct :=
  match declarations vpc env a b ca lb stmts (fun _ => None) (empty_scope 0) with
  | Ok (_, s) => constructs s
  | Raise _ => []
  end.

(** The outcome of the builder in a fresh stack, by cases on what it
    reads: its keyword arguments and at most one response of the remote
    server. *)
Definition outcome (vpc : Vpc) (env : Environment) (kwargs : gmap string pyval)
    (o : oracle) (n : nat) : result (list construct * nat) :=
  match default (PyStr CLUSTER_NAME) (kwargs !! CLUSTER_NAME),
        default (PyStr ENV) (kwargs !! ENV) with
  | PyStr a, PyStr b =>
      let ca := is_True (default (PyBool true) (kwargs !! DEPLOY_CLUSTER_AUTOSCALER)) in
      if is_True (default (PyBool true) (kwargs !! DEPLOY_AWS_LB_CONTROLLER)) then
        match o n with
        | None => Raise RequestError
        | Some doc =>
            match statements_of doc with
            | Raise e => Raise e
            | Ok stmts =>
                if forallb is_object stmts
                then Ok (configuration vpc env a b ca true stmts, S n)
                else Raise RuntimeError
            end
        end
      else Ok (configuration vpc env a b ca false [], n)
  | _, _ => Raise TypeError
  end.

(** A computation that makes at most [k] remote requests and whose
    outcome is fixed by the responses to them. *)
Definition reads_within {A} (k : nat) (m : M nat A) : Prop :=
  forall (o1 o2 : oracle) (n : nat),
    (forall j, (n <= j < n + k)%nat -> o1 j = o2 j) ->
    m o1 n = m o2 n /\
    forall a n', m o1 n = Ok (a, n') -> (n <= n' <= n + k)%nat.

(** The add-on a flag governs. *)
Definition addon_of_flag (flag : string) : addon :=
  if String.eqb flag DEPLOY_CLUSTER_AUTOSCALER then ClusterAutoscaler
  else LoadBalancerController.

(** Concrete inputs. *)
Definition example_env : Environment :=
  {| account := "123456789012"; region := "eu-west-1" |}.

Definition example_vpc : Vpc := PlatformNetwork "PlatformNetwork".

Definition example_policy : json :=
  JObj [("Version", JStr "2012-10-17");
        ("Statement",
         JList [JObj [("Effect", JStr "Allow");
                      ("Action", JList [JStr "iam:CreateServiceLinkedRole"]);
                      ("Resource", JStr "*")]])].

Definition example_oracle : oracle := fun _ => Some example_policy.

(** A server that stops answering after the third request. *)
Definition three_answers : oracle :=
  fun n => if (n <? 3)%nat then Some example_policy else None.

Definition example_package_json : json :=
  JObj [("devDependencies", JObj [("aws-cdk", JStr "1.100.0")])].

Definition example_inputs (default_region : string) : inputs :=
  {| os_environ := {[ "CDK_DEFAULT_ACCOUNT" := "123456789012";
                      "CDK_DEFAULT_REGION" := default_region ]};
     package_json := Ok example_package_json |}.

(** The stages of the pipeline of an assembly. *)
Definition pipeline_stages (a : Assembly) : list CdkStage :=
  stages (cdk_pipeline (pipeline a)).

Definition region_of (st : CdkStage) : string :=
  region (stage_env (application st)).

(** What the builder declares on the concrete inputs, with every flag
    and parameter left to its default. *)
Definition example_statements : list json :=
  [JObj [("Effect", JStr "Allow");
         ("Action", JList [JStr "iam:CreateServiceLinkedRole"]);
         ("Resource", JStr "*")]].

Definition example_configuration : list construct :=
  configuration example_vpc example_env CLUSTER_NAME ENV true true
    example_statements.

(** The development stage of the application on the concrete inputs. *)
Definition example_dev_stage : Stage :=
  {| stage_id := "Platform-Dev";
     stage_env := example_env;
     stage_outdir := None;
     Network := example_vpc;
     EKS := configuration example_vpc example_env "eks-test" "dev" true true
              example_statements |}.

(** ** Further readings of the configuration *)

Definition is_str (v : pyval) : bool :=
  match v with PyStr _ => true | _ => false end.

(** The keyword [param] is absent or carries a string. *)
Definition param_is_str (param : string) (kwargs : gmap string pyval) : bool :=
  from_option is_str true (kwargs !! param).

(** The flag is absent or is [True]. *)
Definition wants (flag : string) (kwargs : gmap string pyval) : bool :=
  is_True (default (PyBool true) (kwargs !! flag)).

(** The response decodes to a document whose ["Statement"] iterates over
    objects only. *)
Definition statements_are_objects (r : option json) : bool :=
  match r with
  | Some doc =>
      match statements_of doc with
      | Ok stmts => forallb is_object stmts
      | Raise _ => false
      end
  | None => false
  end.

(** The keywords the cluster builder looks up. *)
Definition builder_keywords : list string :=
  [CLUSTER_NAME; ENV; DEPLOY_CLUSTER_AUTOSCALER; DEPLOY_AWS_LB_CONTROLLER].

(** The statements added to a role or service account, in the order of
    the additions. *)
Definition policy_of (id : string) (cs : list construct) : option (list json) :=
  match find_construct id cs with
  | Some {| node_body := Role _ _ pol |} => Some pol
  | Some {| node_body := ServiceAccount _ _ pol |} => Some pol
  | _ => None
  end.

Definition managed_policies_of (id : string) (cs : list construct)
  : option (list string) :=
  match find_construct id cs with
  | Some {| node_body := Role _ m _ |} => Some m
  | _ => None
  end.

Definition is_role (id : string) (cs : list construct) : bool :=
  match find_construct id cs with
  | Some {| node_body := Role _ _ _ |} => true
  | _ => false
  end.

Definition is_security_group (id : string) (cs : list construct) : bool :=
  match find_construct id cs with
  | Some {| node_body := SecurityGroup _ _ _ |} => true
  | _ => false
  end.

Definition ingress_of (id : string) (cs : list construct)
  : option (list (string * string)) :=
  match find_construct id cs with
  | Some {| node_body := SecurityGroup _ _ ing |} => Some ing
  | _ => None
  end.

Definition the_bastion (cs : list construct) : option instance_props :=
  match find_construct "EKSBastion" cs with
  | Some {| node_body := Instance p |} => Some p
  | _ => None
  end.

Definition chart_of (id : string) (cs : list construct) : option helm_chart_props :=
  match find_construct id cs with
  | Some {| node_body := HelmChart p |} => Some p
  | _ => None
  end.

Definition service_account_of (id : string) (cs : list construct)
  : option (string * string) :=
  match find_construct id cs with
  | Some {| node_body := ServiceAccount n ns _ |} => Some (n, ns)
  | _ => None
  end.

(** The value at a path of keys of a JSON document. *)
Fixpoint json_path (path : list string) (v : json) : option json :=
  match path with
  | [] => Some v
  | k :: path' =>
      match json_subscript v k with
      | Ok v' => json_path path' v'
      | Raise _ => None
      end
  end.

(** Every role and security group a construct names is declared as
    such in the configuration. *)
Definition references_resolve (cs : list construct) (c : construct) : bool :=
  match node_body c with
  | Cluster p =>
      is_role (masters_role p) cs && is_security_group (security_group p) cs &&
      forallb (fun r => is_security_group (fst r) cs)
              (cluster_security_group_ingress p)
  | Nodegroup p => is_role (node_role p) cs
  | CfnInstanceProfile roles => forallb (fun r => is_role r cs) roles
  | Instance p =>
      is_role (instance_role p) cs &&
      is_security_group (instance_security_group p) cs
  | _ => true
  end.

(** Each construct is ordered only after constructs declared before it:
    [seen] lists the ids declared so far. *)
Fixpoint ordered_after_declared (seen : list string) (cs : list construct) : bool :=
  match cs with
  | [] => true
  | c :: cs' =>
      forallb (fun d => bool_decide (d ∈ seen)) (node_dependencies c) &&
      ordered_after_declared (seen ++ [node_id c]) cs'
  end.

(** The bounds of a node pool are in order. *)
Definition sizes_in_order (p : nodegroup_props) : bool :=
  ((0 <=? min_size p) && (min_size p <=? desired_size p) &&
   (desired_size p <=? max_size p))%Z.

(** The cluster a stage declares. *)
Definition stage_cluster_name (st : Stage) : option string :=
  cluster_name <$> the_cluster (EKS st).

(** * Properties *)

(** ** The monad *)

Lemma bind_unfold {S A B} (m : M S A) (k : A -> M S B) o s :
  (m ≫= k) o s =
  match m o s with
  | Ok (a, s') => k a o s'
  | Raise e => Raise e
  end.
Proof. reflexivity. Qed.

Lemma bind_Ok {S A B} (m : M S A) (k : A -> M S B) o s r :
  (m ≫= k) o s = Ok r ->
  exists a s', m o s = Ok (a, s') /\ k a o s' = Ok r.
Proof.
  rewrite bind_unfold. destruct (m o s) as [[a s']|e]; [eauto | discriminate].
Qed.

Lemma lift_Ok {S A} (r : result A) o (s : S) a s' :
  lift r o s = Ok (a, s') -> r = Ok a /\ s' = s.
Proof. unfold lift. destruct r; intros H; inversion H; auto. Qed.

Lemma ret_Ok {S A} (x : A) o (s : S) a s' :
  (mret x : M S A) o s = Ok (a, s') -> a = x /\ s' = s.
Proof. intros H. inversion H. auto. Qed.

Lemma new_construct_run id b o s :
  new_construct id b o s =
  Ok (id, {| constructs := constructs s ++
               [{| node_id := id; node_body := b; node_dependencies := [] |}];
             requests_made := requests_made s |}).
Proof. reflexivity. Qed.

(** Splits a successful sequence into its successful steps. *)
Ltac inv_bind H :=
  repeat
    (let a := fresh "x" in
     let s := fresh "n" in
     let H1 := fresh "Hstep" in
     apply bind_Ok in H as (a & s & H1 & H);
     try (apply lift_Ok in H1 as [H1 ->])).

(** One step of symbolic execution: the head computation of the left
    side is run on the current state. *)
Ltac mstep :=
  rewrite bind_unfold;
  match goal with
  | |- context [match ?m ?o ?s with Ok _ => _ | Raise _ => _ end] =>
      let r := eval vm_compute in (m o s) in
      change (m o s) with r; cbv beta iota
  end.

(** ** The loop over the statements of the remote document *)

Lemma append_policy_nil b : append_policy [] b = b.
Proof. destruct b; simpl; rewrite ?app_nil_r; reflexivity. Qed.

Lemma append_policy_app l1 l2 b :
  append_policy l2 (append_policy l1 b) = append_policy (l1 ++ l2) b.
Proof. destruct b; simpl; rewrite <- ?app_assoc; reflexivity. Qed.

Lemma attach_nil id s : attach id [] s = s.
Proof.
  destruct s as [cs n]. unfold attach. simpl. f_equal.
  induction cs as [|c cs IH]; [reflexivity|].
  rewrite fmap_cons, IH. f_equal.
  destruct (String.eqb (node_id c) id); [|reflexivity].
  destruct c. unfold with_body. simpl. rewrite append_policy_nil. reflexivity.
Qed.

Lemma attach_cons id stmt stmts s :
  attach id stmts (attach id [stmt] s) = attach id (stmt :: stmts) s.
Proof.
  destruct s as [cs n]. unfold attach. simpl. f_equal.
  induction cs as [|c cs IH]; [reflexivity|].
  rewrite !fmap_cons, IH. f_equal.
  destruct (String.eqb (node_id c) id) eqn:E; simpl; rewrite E; [|reflexivity].
  unfold with_body. simpl. rewrite append_policy_app. reflexivity.
Qed.

(** The loop either attaches every statement or stops at the first
    one that is not an object. *)
Lemma for_each_add_to_policy id stmts o s :
  for_each stmts
    (fun stmt => stmt ← lift (PolicyStatement_from_json stmt);
                 add_to_policy id stmt) o s =
  if forallb is_object stmts then Ok (tt, attach id stmts s)
  else Raise RuntimeError.
Proof.
  revert s. induction stmts as [|stmt stmts IH]; intros s.
  - simpl. rewrite attach_nil. reflexivity.
  - cbn [for_each forallb]. rewrite bind_unfold.
    destruct stmt; try reflexivity.
    cbn [is_object andb].
    change ((stmt ← lift (PolicyStatement_from_json (JObj fields));
             add_to_policy id stmt) o s)
      with (Ok (tt, attach id [JObj fields] s) : result (unit * scope)).
    cbv beta iota. rewrite IH. rewrite attach_cons. reflexivity.
Qed.

Lemma lb_closed self name o s :
  PlatformEKS._deploy_aws_load_balancer_controller self name o s =
  match o (requests_made s) with
  | None => Raise RequestError
  | Some doc =>
      match statements_of doc with
      | Raise e => Raise e
      | Ok stmts =>
          if forallb is_object stmts then lb_install self name stmts o s
          else Raise RuntimeError
      end
  end.
Proof.
  unfold PlatformEKS._deploy_aws_load_balancer_controller, lb_install, statements_of.
  unfold add_service_account.
  rewrite !(bind_unfold (new_construct _ _)), !new_construct_run. cbv beta iota.
  rewrite bind_unfold. unfold requests_get_json at 1. cbn [requests_made constructs].
  destruct (o (requests_made s)) as [doc|]; [|reflexivity].
  rewrite bind_unfold. unfold lift at 1.
  destruct (json_subscript doc "Statement") as [st|e]; [|reflexivity].
  rewrite bind_unfold. unfold lift at 1.
  destruct (json_iter st) as [stmts|e]; [|reflexivity].
  rewrite bind_unfold. rewrite for_each_add_to_policy.
  destruct (forallb is_object stmts); reflexivity.
Qed.

(** ** Flags and parameters *)

Lemma flags_autoscaler kw :
  subscript (PlatformEKS._extract_flags_from_kwargs kw) DEPLOY_CLUSTER_AUTOSCALER =
  Ok (default (PyBool true) (kw !! DEPLOY_CLUSTER_AUTOSCALER)).
Proof.
  unfold PlatformEKS._extract_flags_from_kwargs, PlatformEKS.flags_names, subscript.
  cbn [foldl].
  destruct (kw !! DEPLOY_CLUSTER_AUTOSCALER), (kw !! DEPLOY_AWS_LB_CONTROLLER);
    simplify_map_eq; reflexivity.
Qed.

Lemma flags_lb_controller kw :
  subscript (PlatformEKS._extract_flags_from_kwargs kw) DEPLOY_AWS_LB_CONTROLLER =
  Ok (default (PyBool true) (kw !! DEPLOY_AWS_LB_CONTROLLER)).
Proof.
  unfold PlatformEKS._extract_flags_from_kwargs, PlatformEKS.flags_names, subscript.
  cbn [foldl].
  destruct (kw !! DEPLOY_CLUSTER_AUTOSCALER), (kw !! DEPLOY_AWS_LB_CONTROLLER);
    simplify_map_eq; reflexivity.
Qed.

Lemma params_cluster_name kw :
  subscript (PlatformEKS._extract_params_from_kwargs kw) CLUSTER_NAME =
  Ok (default (PyStr CLUSTER_NAME) (kw !! CLUSTER_NAME)).
Proof.
  unfold PlatformEKS._extract_params_from_kwargs, PlatformEKS.params_names, subscript.
  cbn [foldl].
  destruct (kw !! CLUSTER_NAME), (kw !! ENV); simplify_map_eq; reflexivity.
Qed.

Lemma params_env_name kw :
  subscript (PlatformEKS._extract_params_from_kwargs kw) ENV =
  Ok (default (PyStr ENV) (kw !! ENV)).
Proof.
  unfold PlatformEKS._extract_params_from_kwargs, PlatformEKS.params_names, subscript.
  cbn [foldl].
  destruct (kw !! CLUSTER_NAME), (kw !! ENV); simplify_map_eq; reflexivity.
Qed.

(** ** The outcome of the cluster builder *)

(** The builder, run in a fresh stack, fails or succeeds exactly as
    [outcome] says, and declares what [configuration] lists. *)
Lemma in_stack_init vpc env kwargs o n :
  in_stack (PlatformEKS.__init__ vpc env kwargs) o n = outcome vpc env kwargs o n.
Proof.
  unfold in_stack, PlatformEKS.__init__, PlatformEKS._create_eks,
    PlatformEKS._deploy_addons, outcome.
  cbv zeta. cbn [PlatformEKS.flags PlatformEKS.params].
  rewrite flags_autoscaler, flags_lb_controller, params_cluster_name, params_env_name.
  destruct vpc as [vid cidr groups], env as [acc reg].
  generalize (PlatformEKS._extract_flags_from_kwargs kwargs),
    (PlatformEKS._extract_params_from_kwargs kwargs),
    (default (PyBool true) (kwargs !! DEPLOY_CLUSTER_AUTOSCALER)),
    (default (PyBool true) (kwargs !! DEPLOY_AWS_LB_CONTROLLER)).
  intros fl pa fca flb.
  destruct (default (PyStr CLUSTER_NAME) (kwargs !! CLUSTER_NAME)) as [| |?|a];
    try (vm_compute; reflexivity).
  destruct (default (PyStr ENV) (kwargs !! ENV)) as [| |?|b];
    try (vm_compute; reflexivity).
  do 4 mstep.
  rewrite bind_unfold. unfold lift at 1. cbv beta iota.
  destruct (is_True fca); mstep;
    rewrite bind_unfold; unfold lift at 1; cbv beta iota;
    (destruct (is_True flb); cbv beta iota zeta; [|vm_compute; reflexivity]);
    rewrite bind_unfold, lb_closed; cbn [requests_made];
    (destruct (o n) as [doc|]; [|reflexivity]);
    (destruct (statements_of doc) as [stmts|e]; [|reflexivity]);
    (destruct (forallb is_object stmts); [|reflexivity]);
    vm_compute; reflexivity.
Qed.

Lemma build_cluster_outcome vpc env kwargs o :
  build_cluster vpc env kwargs o =
  match outcome vpc env kwargs o 0 with
  | Ok (cs, _) => Ok cs
  | Raise e => Raise e
  end.
Proof. unfold build_cluster. rewrite in_stack_init. reflexivity. Qed.

(** Every configuration the builder produces is one of the listed ones. *)
Lemma outcome_Ok vpc env kwargs o n cs n' :
  outcome vpc env kwargs o n = Ok (cs, n') ->
  exists a b stmts,
    default (PyStr CLUSTER_NAME) (kwargs !! CLUSTER_NAME) = PyStr a /\
    default (PyStr ENV) (kwargs !! ENV) = PyStr b /\
    cs = configuration vpc env a b
           (is_True (default (PyBool true) (kwargs !! DEPLOY_CLUSTER_AUTOSCALER)))
           (is_True (default (PyBool true) (kwargs !! DEPLOY_AWS_LB_CONTROLLER)))
           stmts.
Proof.
  unfold outcome.
  destruct (default (PyStr CLUSTER_NAME) (kwargs !! CLUSTER_NAME)) as [| |?|a];
    try discriminate.
  destruct (default (PyStr ENV) (kwargs !! ENV)) as [| |?|b]; try discriminate.
  cbv zeta.
  destruct (is_True (default (PyBool true) (kwargs !! DEPLOY_AWS_LB_CONTROLLER))).
  - destruct (o n) as [doc|]; [|discriminate].
    destruct (statements_of doc) as [stmts|e]; [|discriminate].
    destruct (forallb is_object stmts); [|discriminate].
    intros H. inversion H. subst. exists a, b, stmts. auto.
  - intros H. inversion H. subst. exists a, b, []. auto.
Qed.

Lemma build_cluster_Ok vpc env kwargs o cs :
  build_cluster vpc env kwargs o = Ok cs ->
  exists a b stmts,
    default (PyStr CLUSTER_NAME) (kwargs !! CLUSTER_NAME) = PyStr a /\
    default (PyStr ENV) (kwargs !! ENV) = PyStr b /\
    cs = configuration vpc env a b
           (is_True (default (PyBool true) (kwargs !! DEPLOY_CLUSTER_AUTOSCALER)))
           (is_True (default (PyBool true) (kwargs !! DEPLOY_AWS_LB_CONTROLLER)))
           stmts.
Proof.
  rewrite build_cluster_outcome.
  destruct (outcome vpc env kwargs o 0) as [[cs' n']|e] eqn:E; [|discriminate].
  intros H. inversion H. subst. eapply outcome_Ok. exact E.
Qed.

(** ** The configurations the builder produces *)

Lemma configuration_ids vpc env a b ca lb stmts :
  node_id <$> configuration vpc env a b ca lb stmts =
  cluster_builder_constructs ++ addon_constructs AgentDaemonSet ++
  addon_constructs Bastion ++
  (if ca then addon_constructs ClusterAutoscaler else []) ++
  (if lb then addon_constructs LoadBalancerController else []).
Proof. destruct ca, lb; vm_compute; reflexivity. Qed.

Lemma configuration_autoscaler vpc env a b ca lb stmts :
  deployed ClusterAutoscaler (configuration vpc env a b ca lb stmts) = ca /\
  fully_deployed ClusterAutoscaler (configuration vpc env a b ca lb stmts) = ca.
Proof. destruct ca, lb; vm_compute; split; reflexivity. Qed.

Lemma configuration_lb_controller vpc env a b ca lb stmts :
  deployed LoadBalancerController (configuration vpc env a b ca lb stmts) = lb /\
  fully_deployed LoadBalancerController (configuration vpc env a b ca lb stmts) = lb.
Proof. destruct ca, lb; vm_compute; split; reflexivity. Qed.

Lemma configuration_ordering vpc env a b ca lb stmts :
  let cs := configuration vpc env a b ca lb stmts in
  ordered_after_agent Bastion cs = true /\
  dependencies_of "EKSBastion" cs = [ssm_agent_manifest] /\
  declared ssm_agent_manifest cs = true /\
  fully_deployed Bastion cs = true /\
  ordered_after_agent ClusterAutoscaler cs = ca /\
  (ca = true -> dependencies_of "chart-cluster-autoscaler" cs = [ssm_agent_manifest]) /\
  ordered_after_agent LoadBalancerController cs = false /\
  (lb = true ->
   dependencies_of "chart-aws-load-balancer-controller" cs =
   ["aws-load-balancer-controller"]).
Proof. destruct ca, lb; vm_compute; repeat split; reflexivity || discriminate. Qed.

Lemma configuration_priorities vpc env a b lb stmts :
  priority_expander_text (configuration vpc env a b true lb stmts) =
  Some PlatformEKS.priorities.
Proof. destruct lb; vm_compute; reflexivity. Qed.

Lemma configuration_cluster vpc env a b ca lb stmts :
  exists p,
    the_cluster (configuration vpc env a b ca lb stmts) = Some p /\
    cluster_name p = (a +:+ "-") +:+ b /\
    default_capacity p = 0 /\
    endpoint_access p = PRIVATE /\
    version p = V1_20.
Proof.
  destruct ca, lb; eexists; (split; [vm_compute; reflexivity|]);
    repeat split; reflexivity.
Qed.

Lemma configuration_nodegroups vpc env a b ca lb stmts :
  nodegroups (configuration vpc env a b ca lb stmts) =
  [ {| nodegroup_name := "od-default-ng";
       capacity_type := ON_DEMAND;
       min_size := 0; desired_size := 1; max_size := 10;
       ami_type := AL2_X86_64;
       instance_types := ["m5.large"];
       node_role := "ODDefaultNGRole";
       subnets := subnet_group_name "Private" |};
    {| nodegroup_name := "spot-default-ng";
       capacity_type := SPOT;
       min_size := 0; desired_size := 1; max_size := 10;
       ami_type := AL2_X86_64;
       instance_types := ["m5.large"; "c5.large"; "m4.large"; "c4.large"];
       node_role := "SPOTDefaultNGRole";
       subnets := subnet_group_name "Private" |};
    {| nodegroup_name := "od-graviton-ng";
       capacity_type := SPOT;
       min_size := 0; desired_size := 0; max_size := 10;
       ami_type := AL2_ARM_64;
       instance_types := ["m6g.large"];
       node_role := "ODGravitonNGRole";
       subnets := subnet_group_name "Private" |} ].
Proof. destruct ca, lb; vm_compute; reflexivity. Qed.

Lemma is_True_not_True v : v <> PyBool true -> is_True v = false.
Proof. destruct v as [|[|]| |]; intros H; [reflexivity|congruence|reflexivity..]. Qed.

(** The builder succeeds on the concrete inputs. *)
Lemma example_build :
  build_cluster example_vpc example_env ∅ example_oracle = Ok example_configuration.
Proof. vm_compute. reflexivity. Qed.

(** ** The autoscaler's priority expander *)

(** C1, as the claim states it, fails: on the concrete inputs the
    autoscaler is deployed, yet the pattern of the on-demand pools is
    not under priority 20 and that of the spot pools not under 10. *)
Lemma priority_expander_on_demand_not_20 :
  ~ (forall cs,
       build_cluster example_vpc example_env ∅ example_oracle = Ok cs ->
       deployed ClusterAutoscaler cs = true ->
       exists text,
         priority_expander_text cs = Some text /\
         priority_of "od*" text = Some 20 /\
         priority_of "spot*" text = Some 10 /\
         prefers "od*" "spot*" text = true).
Proof.
  intros H.
  destruct (H example_configuration) as (text & Ht & Hod & _).
  - vm_compute. reflexivity.
  - vm_compute. reflexivity.
  - unfold example_configuration in Ht.
    rewrite configuration_priorities in Ht. inversion Ht. subst text.
    vm_compute in Hod. discriminate.
Qed.

(** C1, amended: whenever the autoscaler add-on is deployed, the
    priority-expander configuration it declares lists the pattern of the
    on-demand pools ([od*]) under priority 10 and that of the spot pools
    ([spot*]) under priority 20, so the expander prefers spot pools over
    on-demand pools. *)
Theorem priority_expander_prefers_spot vpc env kwargs o cs :
  build_cluster vpc env kwargs o = Ok cs ->
  deployed ClusterAutoscaler cs = true ->
  exists text,
    priority_expander_text cs = Some text /\
    parse_priorities text = Some [(10, [""; "od*"]); (20, ["spot*"])] /\
    priority_of "od*" text = Some 10 /\
    priority_of "spot*" text = Some 20 /\
    prefers "spot*" "od*" text = true /\
    prefers "od*" "spot*" text = false.
Proof.
  intros H Hca.
  apply build_cluster_Ok in H as (a & b & stmts & _ & _ & ->).
  rewrite (proj1 (configuration_autoscaler _ _ _ _ _ _ _)) in Hca.
  rewrite Hca. exists PlatformEKS.priorities.
  split; [apply configuration_priorities|].
  vm_compute. repeat split; reflexivity.
Qed.

Lemma priority_expander_prefers_spot_witness :
  exists text,
    priority_expander_text example_configuration = Some text /\
    parse_priorities text = Some [(10, [""; "od*"]); (20, ["spot*"])] /\
    priority_of "od*" text = Some 10 /\
    priority_of "spot*" text = Some 20 /\
    prefers "spot*" "od*" text = true /\
    prefers "od*" "spot*" text = false.
Proof.
  apply (priority_expander_prefers_spot example_vpc example_env ∅ example_oracle);
    vm_compute; reflexivity.
Defined.

(** ** Ordering of the add-ons *)

(** C2, as the claim states it, fails: on the concrete inputs the
    load-balancer controller is deployed and none of its constructs is
    ordered after the agent daemon set. *)
Lemma lb_controller_not_ordered_after_agent :
  ~ (forall cs a,
       build_cluster example_vpc example_env ∅ example_oracle = Ok cs ->
       a <> AgentDaemonSet ->
       deployed a cs = true ->
       ordered_after_agent a cs = true).
Proof.
  intros H.
  assert (ordered_after_agent LoadBalancerController example_configuration = true)
    as Hlb.
  { apply H; [vm_compute; reflexivity | discriminate | vm_compute; reflexivity]. }
  vm_compute in Hlb. discriminate.
Qed.

(** C2, amended: in every produced configuration the agent daemon set is
    declared first among the add-ons; the bastion is deployed and ordered
    after the agent daemon set; the autoscaler, when deployed, is ordered
    after the agent daemon set through its chart; the load-balancer
    controller, when deployed, is ordered after its own service account
    only. *)
Theorem addons_ordered_after_agent vpc env kwargs o cs :
  build_cluster vpc env kwargs o = Ok cs ->
  (exists rest,
     node_id <$> cs = cluster_builder_constructs ++ ssm_agent_manifest :: rest) /\
  fully_deployed Bastion cs = true /\
  ordered_after_agent Bastion cs = true /\
  ssm_agent_manifest ∈ dependencies_of "EKSBastion" cs /\
  (deployed ClusterAutoscaler cs = true ->
   ordered_after_agent ClusterAutoscaler cs = true /\
   ssm_agent_manifest ∈ dependencies_of "chart-cluster-autoscaler" cs) /\
  (deployed LoadBalancerController cs = true ->
   ordered_after_agent LoadBalancerController cs = false /\
   dependencies_of "chart-aws-load-balancer-controller" cs =
   ["aws-load-balancer-controller"]).
Proof.
  intros H.
  apply build_cluster_Ok in H as (a & b & stmts & _ & _ & ->).
  set (ca := is_True _). set (lb := is_True _).
  destruct (configuration_ordering vpc env a b ca lb stmts)
    as (Hb & Hdep & _ & Hfull & Hca & Hcadep & Hlb & Hlbdep).
  split.
  { rewrite configuration_ids. eexists. reflexivity. }
  split; [exact Hfull|]. split; [exact Hb|].
  split; [rewrite Hdep; apply list_elem_of_singleton; reflexivity|].
  split.
  - rewrite (proj1 (configuration_autoscaler _ _ _ _ _ _ _)). intros ->.
    split; [exact Hca|]. rewrite (Hcadep eq_refl).
    apply list_elem_of_singleton. reflexivity.
  - rewrite (proj1 (configuration_lb_controller _ _ _ _ _ _ _)). intros ->.
    split; [exact Hlb | exact (Hlbdep eq_refl)].
Qed.

Lemma addons_ordered_after_agent_witness :
  (exists rest,
     node_id <$> example_configuration =
     cluster_builder_constructs ++ ssm_agent_manifest :: rest) /\
  fully_deployed Bastion example_configuration = true /\
  ordered_after_agent Bastion example_configuration = true /\
  ssm_agent_manifest ∈ dependencies_of "EKSBastion" example_configuration /\
  (deployed ClusterAutoscaler example_configuration = true ->
   ordered_after_agent ClusterAutoscaler example_configuration = true /\
   ssm_agent_manifest ∈
     dependencies_of "chart-cluster-autoscaler" example_configuration) /\
  (deployed LoadBalancerController example_configuration = true ->
   ordered_after_agent LoadBalancerController example_configuration = false /\
   dependencies_of "chart-aws-load-balancer-controller" example_configuration =
   ["aws-load-balancer-controller"]).
Proof.
  apply (addons_ordered_after_agent example_vpc example_env ∅ example_oracle).
  vm_compute. reflexivity.
Defined.

(** ** The feature flags *)

(** C5: for every run of the cluster builder, an autoscaler flag
    supplied as [False] leaves the configuration without any construct of
    the autoscaler (service account, priority-expander ConfigMap, chart),
    and a flag supplied as [True] or omitted puts all three in it. *)
Theorem autoscaler_follows_flag vpc env kwargs o cs :
  build_cluster vpc env kwargs o = Ok cs ->
  (kwargs !! DEPLOY_CLUSTER_AUTOSCALER = Some (PyBool false) ->
   deployed ClusterAutoscaler cs = false) /\
  (kwargs !! DEPLOY_CLUSTER_AUTOSCALER = Some (PyBool true) \/
   kwargs !! DEPLOY_CLUSTER_AUTOSCALER = None ->
   fully_deployed ClusterAutoscaler cs = true).
Proof.
  intros H.
  apply build_cluster_Ok in H as (a & b & stmts & _ & _ & ->).
  split.
  - intros ->. apply configuration_autoscaler.
  - intros [-> | ->]; apply configuration_autoscaler.
Qed.

Lemma autoscaler_follows_flag_witness :
  deployed ClusterAutoscaler
    (configuration example_vpc example_env CLUSTER_NAME ENV false true []) = false /\
  fully_deployed ClusterAutoscaler example_configuration = true.
Proof.
  split.
  - refine (proj1 (autoscaler_follows_flag example_vpc example_env
                     {[ DEPLOY_CLUSTER_AUTOSCALER := PyBool false ]}
                     (fun _ => Some (JObj [("Statement", JList [])])) _ _) _);
      vm_compute; reflexivity.
  - refine (proj2 (autoscaler_follows_flag example_vpc example_env ∅
                     example_oracle _ _) _);
      [vm_compute; reflexivity | right; vm_compute; reflexivity].
Defined.

(** C10: the flags are compared by identity with [True].  A flag
    supplied with a truthy value other than [True] has the effect of a
    flag supplied as [False]: the builder's outcome is the same, and the
    add-on the flag governs is not deployed. *)
Theorem flags_compared_by_identity vpc env kwargs o flag v :
  flag ∈ PlatformEKS.flags_names ->
  kwargs !! flag = Some v ->
  truthy v = true ->
  v <> PyBool true ->
  build_cluster vpc env kwargs o =
  build_cluster vpc env (<[flag := PyBool false]> kwargs) o /\
  forall cs,
    build_cluster vpc env kwargs o = Ok cs ->
    deployed (addon_of_flag flag) cs = false.
Proof.
  intros Hflag Hv _ Hne.
  apply is_True_not_True in Hne.
  unfold PlatformEKS.flags_names in Hflag.
  apply elem_of_cons in Hflag as [-> | Hflag];
    [| apply list_elem_of_singleton in Hflag as ->].
  - split.
    + rewrite !build_cluster_outcome. unfold outcome.
      rewrite lookup_insert_eq, !lookup_insert_ne by discriminate.
      rewrite Hv. cbn [from_option id]. rewrite Hne. reflexivity.
    + intros cs H.
      apply build_cluster_Ok in H as (a & b & stmts & _ & _ & ->).
      rewrite Hv. cbn [from_option id]. rewrite Hne.
      apply configuration_autoscaler.
  - split.
    + rewrite !build_cluster_outcome. unfold outcome.
      rewrite lookup_insert_eq, !lookup_insert_ne by discriminate.
      rewrite Hv. cbn [from_option id]. rewrite Hne. reflexivity.
    + intros cs H.
      apply build_cluster_Ok in H as (a & b & stmts & _ & _ & ->).
      rewrite Hv. cbn [from_option id]. rewrite Hne.
      apply configuration_lb_controller.
Qed.

Lemma flags_compared_by_identity_witness :
  build_cluster example_vpc example_env
    {[ DEPLOY_CLUSTER_AUTOSCALER := PyInt 1 ]} example_oracle =
  build_cluster example_vpc example_env
    (<[DEPLOY_CLUSTER_AUTOSCALER := PyBool false]>
       {[ DEPLOY_CLUSTER_AUTOSCALER := PyInt 1 ]}) example_oracle /\
  forall cs,
    build_cluster example_vpc example_env
      {[ DEPLOY_CLUSTER_AUTOSCALER := PyInt 1 ]} example_oracle = Ok cs ->
    deployed (addon_of_flag DEPLOY_CLUSTER_AUTOSCALER) cs = false.
Proof.
  refine (flags_compared_by_identity example_vpc example_env
            {[ DEPLOY_CLUSTER_AUTOSCALER := PyInt 1 ]} example_oracle
            DEPLOY_CLUSTER_AUTOSCALER (PyInt 1) _ _ _ _).
  - apply list_elem_of_here.
  - vm_compute. reflexivity.
  - vm_compute. reflexivity.
  - discriminate.
Defined.

(** ** The node pools *)

(** C9: in every produced configuration the spot pool allows four
    instance shapes and the on-demand pool one, so the spot pool's set of
    shapes is at least as large as that of the on-demand pool; no
    on-demand pool has more shapes than the spot pool. *)
Theorem spot_pool_has_more_shapes vpc env kwargs o cs :
  build_cluster vpc env kwargs o = Ok cs ->
  exists od spot,
    nodegroup_named "od-default-ng" cs = Some od /\
    nodegroup_named "spot-default-ng" cs = Some spot /\
    capacity_type od = ON_DEMAND /\
    capacity_type spot = SPOT /\
    size (instance_shapes spot) = 4%nat /\
    size (instance_shapes od) = 1%nat /\
    (size (instance_shapes od) <= size (instance_shapes spot))%nat /\
    Forall (fun p => capacity_type p = ON_DEMAND ->
                     (size (instance_shapes p) <= size (instance_shapes spot))%nat)
           (nodegroups cs).
Proof.
  intros H.
  apply build_cluster_Ok in H as (a & b & stmts & _ & _ & ->).
  unfold nodegroup_named. rewrite configuration_nodegroups.
  do 2 eexists.
  split; [vm_compute; reflexivity|]. split; [vm_compute; reflexivity|].
  split; [reflexivity|]. split; [reflexivity|].
  split; [vm_compute; reflexivity|]. split; [vm_compute; reflexivity|].
  split; [vm_compute; lia|].
  constructor; [intros _; vm_compute; lia|].
  constructor; [intros Hod; discriminate Hod|].
  constructor; [intros Hod; discriminate Hod|].
  constructor.
Qed.

Lemma spot_pool_has_more_shapes_witness :
  exists od spot,
    nodegroup_named "od-default-ng" example_configuration = Some od /\
    nodegroup_named "spot-default-ng" example_configuration = Some spot /\
    capacity_type od = ON_DEMAND /\
    capacity_type spot = SPOT /\
    size (instance_shapes spot) = 4%nat /\
    size (instance_shapes od) = 1%nat /\
    (size (instance_shapes od) <= size (instance_shapes spot))%nat /\
    Forall (fun p => capacity_type p = ON_DEMAND ->
                     (size (instance_shapes p) <= size (instance_shapes spot))%nat)
           (nodegroups example_configuration).
Proof.
  refine (spot_pool_has_more_shapes example_vpc example_env ∅ example_oracle
            example_configuration _).
  vm_compute. reflexivity.
Defined.

(** ** The environment composer *)

Lemma eks_kwargs_cluster_name en kw :
  Platform.eks_kwargs en kw !! CLUSTER_NAME =
  Some (default (PyStr "eks") (kw !! "cluster_name")).
Proof.
  unfold Platform.eks_kwargs, Platform.cluster_name_argument.
  rewrite lookup_insert_eq. destruct (kw !! "cluster_name"); reflexivity.
Qed.

Lemma eks_kwargs_env_name en kw :
  Platform.eks_kwargs en kw !! ENV = Some (PyStr en).
Proof.
  unfold Platform.eks_kwargs.
  rewrite lookup_insert_ne by discriminate. apply lookup_insert_eq.
Qed.

Lemma eks_kwargs_flags en kw :
  Platform.eks_kwargs en kw !! DEPLOY_CLUSTER_AUTOSCALER = None /\
  Platform.eks_kwargs en kw !! DEPLOY_AWS_LB_CONTROLLER = None.
Proof.
  unfold Platform.eks_kwargs.
  split; rewrite !lookup_insert_ne by discriminate; apply lookup_empty.
Qed.

(** The composer succeeds or fails with the cluster builder and wraps
    what the builder declared. *)
Lemma platform_init_outcome id_ env outdir env_name kwargs o n :
  Platform.__init__ id_ env outdir env_name kwargs o n =
  match outcome (PlatformNetwork "PlatformNetwork") env
          (Platform.eks_kwargs (default "eks-env" env_name) kwargs) o n with
  | Ok (cs, n') =>
      Ok ({| stage_id := id_;
             stage_env := env;
             stage_outdir := outdir;
             Network := PlatformNetwork "PlatformNetwork";
             EKS := cs |}, n')
  | Raise e => Raise e
  end.
Proof.
  unfold Platform.__init__. cbv zeta. rewrite bind_unfold, in_stack_init.
  destruct (outcome _ _ _ _ _) as [[cs n']|e]; reflexivity.
Qed.

Lemma platform_init_Ok id_ env outdir env_name kwargs o n st n' :
  Platform.__init__ id_ env outdir env_name kwargs o n = Ok (st, n') ->
  stage_id st = id_ /\ stage_env st = env.
Proof.
  rewrite platform_init_outcome.
  destruct (outcome _ _ _ _ _) as [[cs n1]|e]; [|discriminate].
  intros H. inversion H. subst. split; reflexivity.
Qed.

(** C8: every invocation of the composer runs the cluster builder, in
    the stack "EKS", with exactly two keywords: the environment name and
    a cluster name that is "eks" when the composer is given none and the
    value it is given, unchanged, otherwise (also when that value is not
    a string); the stage it returns holds what that run of the builder
    declared, and it fails as that run fails. *)
Theorem default_cluster_name id_ env outdir env_name kwargs o n :
  (kwargs !! "cluster_name" = None ->
   Platform.__init__ id_ env outdir env_name kwargs o n =
   match in_stack
           (PlatformEKS.__init__ (PlatformNetwork "PlatformNetwork") env
              {[ "cluster_name" := PyStr "eks";
                 "env_name" := PyStr (default "eks-env" env_name) ]}) o n with
   | Ok (cs, n') =>
       Ok ({| stage_id := id_; stage_env := env; stage_outdir := outdir;
              Network := PlatformNetwork "PlatformNetwork"; EKS := cs |}, n')
   | Raise e => Raise e
   end) /\
  (forall v,
     kwargs !! "cluster_name" = Some v ->
     Platform.__init__ id_ env outdir env_name kwargs o n =
     match in_stack
             (PlatformEKS.__init__ (PlatformNetwork "PlatformNetwork") env
                {[ "cluster_name" := v;
                   "env_name" := PyStr (default "eks-env" env_name) ]}) o n with
     | Ok (cs, n') =>
         Ok ({| stage_id := id_; stage_env := env; stage_outdir := outdir;
                Network := PlatformNetwork "PlatformNetwork"; EKS := cs |}, n')
     | Raise e => Raise e
     end) /\
  (forall st n',
     Platform.__init__ id_ env outdir env_name kwargs o n = Ok (st, n') ->
     exists a,
       default (PyStr "eks") (kwargs !! "cluster_name") = PyStr a /\
       cluster_name <$> the_cluster (EKS st) =
       Some ((a +:+ "-") +:+ default "eks-env" env_name)) /\
  (forall v,
     kwargs !! "cluster_name" = Some v ->
     (forall a, v <> PyStr a) ->
     Platform.__init__ id_ env outdir env_name kwargs o n = Raise TypeError).
Proof.
  split; [|split; [|split]].
  - intros H. unfold Platform.__init__, Platform.eks_kwargs,
      Platform.cluster_name_argument.
    rewrite H. reflexivity.
  - intros v H. unfold Platform.__init__, Platform.eks_kwargs,
      Platform.cluster_name_argument.
    rewrite H. reflexivity.
  - intros st n'. rewrite platform_init_outcome.
    destruct (outcome _ _ _ _ _) as [[cs n1]|e] eqn:E; [|discriminate].
    intros H. inversion H. subst st n1. clear H. cbn [EKS].
    apply outcome_Ok in E as (a & b & stmts & Ha & Hb & ->).
    rewrite eks_kwargs_cluster_name in Ha. rewrite eks_kwargs_env_name in Hb.
    cbn [from_option id] in Ha, Hb. inversion Hb. subst b.
    exists a. split; [exact Ha|].
    destruct (configuration_cluster (PlatformNetwork "PlatformNetwork") env a
                (default "eks-env" env_name)
                (is_True (default (PyBool true)
                   (Platform.eks_kwargs (default "eks-env" env_name) kwargs
                      !! DEPLOY_CLUSTER_AUTOSCALER)))
                (is_True (default (PyBool true)
                   (Platform.eks_kwargs (default "eks-env" env_name) kwargs
                      !! DEPLOY_AWS_LB_CONTROLLER)))
                stmts) as (p & Hp & Hn & _).
    rewrite Hp. cbn [fmap option_fmap option_map]. rewrite Hn. reflexivity.
  - intros v H Hv. rewrite platform_init_outcome. unfold outcome.
    rewrite eks_kwargs_cluster_name, H. cbn [from_option id].
    destruct v as [| | |a]; try reflexivity.
    exfalso. apply (Hv a). reflexivity.
Qed.

Lemma default_cluster_name_witness :
  (exists a,
     default (PyStr "eks") ((∅ : gmap string pyval) !! "cluster_name") = PyStr a /\
     cluster_name <$>
       the_cluster
         (configuration (PlatformNetwork "PlatformNetwork") example_env
            "eks" "pre-prod" true true example_statements) =
     Some ((a +:+ "-") +:+ default "eks-env" (Some "pre-prod"))) /\
  Platform.__init__ "Platform-Dev" example_env None (Some "dev")
    {[ "cluster_name" := PyNone ]} example_oracle 0%nat = Raise TypeError.
Proof.
  split.
  - refine (proj1 (proj2 (proj2
              (default_cluster_name "Platform-PreProd" example_env None
                 (Some "pre-prod") ∅ example_oracle 0%nat)))
              {| stage_id := "Platform-PreProd";
                 stage_env := example_env;
                 stage_outdir := None;
                 Network := PlatformNetwork "PlatformNetwork";
                 EKS := configuration (PlatformNetwork "PlatformNetwork")
                          example_env "eks" "pre-prod" true true
                          example_statements |} 1%nat _).
    vm_compute. reflexivity.
  - refine (proj2 (proj2 (proj2
              (default_cluster_name "Platform-Dev" example_env None (Some "dev")
                 {[ "cluster_name" := PyNone ]} example_oracle 0%nat)))
              PyNone _ _).
    + vm_compute. reflexivity.
    + intros a. discriminate.
Defined.

(** C3: a composer invoked with cluster name "eks-test" and environment
    name "dev" yields a cluster named "eks-test-dev" with zero default
    capacity and exactly the three node pools "od-default-ng",
    "spot-default-ng" and "od-graviton-ng". *)
Theorem dev_scenario id_ env outdir kwargs o st :
  kwargs !! "cluster_name" = Some (PyStr "eks-test") ->
  compose id_ env outdir (Some "dev") kwargs o = Ok st ->
  exists p,
    the_cluster (EKS st) = Some p /\
    cluster_name p = "eks-test-dev" /\
    default_capacity p = 0 /\
    nodegroup_name <$> nodegroups (EKS st) =
    ["od-default-ng"; "spot-default-ng"; "od-graviton-ng"].
Proof.
  intros Hname H. unfold compose in H. rewrite platform_init_outcome in H.
  destruct (outcome _ _ _ _ _) as [[cs n']|e] eqn:E; [|discriminate].
  inversion H. subst st. clear H. cbn [EKS].
  apply outcome_Ok in E as (a & b & stmts & Ha & Hb & ->).
  rewrite eks_kwargs_cluster_name, Hname in Ha.
  rewrite eks_kwargs_env_name in Hb.
  cbn in Ha, Hb. inversion Ha. inversion Hb. subst a b.
  destruct (configuration_cluster (PlatformNetwork "PlatformNetwork") env
              "eks-test" "dev"
              (is_True (default (PyBool true)
                 (Platform.eks_kwargs "dev" kwargs !! DEPLOY_CLUSTER_AUTOSCALER)))
              (is_True (default (PyBool true)
                 (Platform.eks_kwargs "dev" kwargs !! DEPLOY_AWS_LB_CONTROLLER)))
              stmts)
    as (p & Hp & Hn & Hcap & _).
  exists p. split; [exact Hp|]. split; [exact Hn|]. split; [exact Hcap|].
  rewrite configuration_nodegroups. reflexivity.
Qed.

Lemma dev_scenario_witness :
  exists p,
    the_cluster (EKS example_dev_stage) = Some p /\
    cluster_name p = "eks-test-dev" /\
    default_capacity p = 0 /\
    nodegroup_name <$> nodegroups (EKS example_dev_stage) =
    ["od-default-ng"; "spot-default-ng"; "od-graviton-ng"].
Proof.
  refine (dev_scenario "Platform-Dev" example_env None
            {[ "cluster_name" := PyStr "eks-test" ]} example_oracle
            example_dev_stage _ _);
    vm_compute; reflexivity.
Defined.

(** ** The promotion pipeline *)

Lemma subscript_Ok {V} (d : gmap string V) k v :
  subscript d k = Ok v -> d !! k = Some v.
Proof.
  unfold subscript. destruct (d !! k); intros H; inversion H; reflexivity.
Qed.

(** The shape of every assembly the application produces. *)
Lemma synth_Ok i o a :
  synth i o = Ok a ->
  exists acc reg cli pre prod,
    os_environ i !! "CDK_DEFAULT_ACCOUNT" = Some acc /\
    os_environ i !! "CDK_DEFAULT_REGION" = Some reg /\
    stage_id pre = "Platform-PreProd" /\
    stage_env pre = {| account := acc; region := reg |} /\
    stage_id prod = "Platform-Prod" /\
    stage_env prod = {| account := acc; region := "eu-central-1" |} /\
    cdk_pipeline (pipeline a) =
    {| pipeline_id := "EKSPlatform";
       source_action :=
         GitHubSourceAction "GitHub" (secrets_manager "github-token")
           (secrets_manager "github-user") "eks-platform" "main";
       synth_action :=
         SimpleSynthAction ["pyenv local 3.7.10"; "./scripts/install-deps.sh"]
           "npx cdk synth";
       single_publisher_per_type := true;
       cdk_cli_version := cli;
       stages :=
         [ {| application := pre;
              stage_actions :=
                [DeployStackAction "Network" 1 2;
                 DeployStackAction "EKS" 3 4;
                 ManualApprovalAction "ConfirmPreProdDeployment" 5];
              next_run_order := 6 |};
           {| application := prod;
              stage_actions :=
                [DeployStackAction "Network" 1 2;
                 DeployStackAction "EKS" 3 4];
              next_run_order := 5 |} ] |}.
Proof.
  unfold synth. intros H.
  destruct (app i o 0%nat) as [[a' n]|e] eqn:E; [|discriminate].
  inversion H. subst a'. clear H.
  unfold app in E. inv_bind E.
  apply ret_Ok in E as [-> _]. cbn [pipeline].
  match goal with
  | H : Pipeline.__init__ _ _ _ _ _ = Ok _ |- _ =>
      unfold Pipeline.__init__ in H; inv_bind H; apply ret_Ok in H as [-> _]
  end.
  cbn [cdk_pipeline].
  match goal with
  | H : Pipeline._add_pre_prod_stage _ _ _ _ = Ok _ |- _ =>
      unfold Pipeline._add_pre_prod_stage in H; inv_bind H;
      apply ret_Ok in H as [-> _]
  end.
  match goal with
  | H : Pipeline._add_prod_stage _ _ _ _ = Ok _ |- _ =>
      unfold Pipeline._add_prod_stage in H; inv_bind H;
      apply ret_Ok in H as [-> _]
  end.
  repeat match goal with
  | H : Platform.__init__ _ _ _ _ _ _ _ = Ok _ |- _ =>
      apply platform_init_Ok in H as [? ?]
  | H : subscript _ _ = Ok _ |- _ => apply subscript_Ok in H
  end.
  simplify_map_eq.
  do 5 eexists. repeat (split; [eassumption || reflexivity|]).
  reflexivity.
Qed.

(** C4: the pipeline declares, in this order, a source trigger, a
    synthesis step, the pre-production deployment, a manual approval
    right after it (it takes the run order that follows the deployment
    actions of the stage), and the production deployment, which no
    approval follows. *)
Theorem pipeline_stage_order i o a :
  synth i o = Ok a ->
  declared_order (cdk_pipeline (pipeline a)) =
  [SourceTrigger "GitHub";
   Synthesis "npx cdk synth";
   Deployment "Platform-PreProd" "Network";
   Deployment "Platform-PreProd" "EKS";
   ManualApproval "ConfirmPreProdDeployment";
   Deployment "Platform-Prod" "Network";
   Deployment "Platform-Prod" "EKS"] /\
  exists pre prod,
    pipeline_stages a = [pre; prod] /\
    stage_actions pre =
    [DeployStackAction "Network" 1 2;
     DeployStackAction "EKS" 3 4;
     ManualApprovalAction "ConfirmPreProdDeployment" 5] /\
    stage_actions prod =
    [DeployStackAction "Network" 1 2; DeployStackAction "EKS" 3 4].
Proof.
  intros H.
  apply synth_Ok in H
    as (acc & reg & cli & pre & prod & _ & _ & Hid1 & _ & Hid2 & _ & Hp).
  unfold pipeline_stages. rewrite Hp. split.
  - unfold declared_order. cbn. rewrite Hid1, Hid2. reflexivity.
  - do 2 eexists. cbn. repeat split; reflexivity.
Qed.

Lemma pipeline_stage_order_witness :
  exists a,
    synth (example_inputs "eu-west-1") example_oracle = Ok a /\
    declared_order (cdk_pipeline (pipeline a)) =
    [SourceTrigger "GitHub";
     Synthesis "npx cdk synth";
     Deployment "Platform-PreProd" "Network";
     Deployment "Platform-PreProd" "EKS";
     ManualApproval "ConfirmPreProdDeployment";
     Deployment "Platform-Prod" "Network";
     Deployment "Platform-Prod" "EKS"].
Proof.
  eexists. split; [vm_compute; reflexivity|].
  refine (proj1 (pipeline_stage_order (example_inputs "eu-west-1")
                   example_oracle _ _)).
  vm_compute. reflexivity.
Defined.

(** C6, as the claim states it, fails: when the default region is
    "eu-central-1" the synthesis succeeds and both stages are in that
    region. *)
Lemma stages_share_region_eu_central_1 :
  ~ (forall a pre prod,
       synth (example_inputs "eu-central-1") example_oracle = Ok a ->
       pipeline_stages a = [pre; prod] ->
       region_of pre <> region_of prod).
Proof.
  intros H.
  assert (exists a pre prod,
            synth (example_inputs "eu-central-1") example_oracle = Ok a /\
            pipeline_stages a = [pre; prod] /\
            region_of pre = region_of prod) as (a & pre & prod & E1 & E2 & E3).
  { do 3 eexists. split; [vm_compute; reflexivity|].
    split; vm_compute; reflexivity. }
  exact (H a pre prod E1 E2 E3).
Qed.

(** C6, amended: the pre-production stage is in the account and region
    of the default environment variables and the production stage in the
    same account and the region "eu-central-1"; the regions of the two
    stages, and so their environments, differ exactly when the default
    region is not "eu-central-1". *)
Theorem stage_environments i o a :
  synth i o = Ok a ->
  exists acc reg pre prod,
    os_environ i !! "CDK_DEFAULT_ACCOUNT" = Some acc /\
    os_environ i !! "CDK_DEFAULT_REGION" = Some reg /\
    pipeline_stages a = [pre; prod] /\
    stage_env (application pre) = {| account := acc; region := reg |} /\
    stage_env (application prod) = {| account := acc; region := "eu-central-1" |} /\
    (region_of pre <> region_of prod <-> reg <> "eu-central-1") /\
    (stage_env (application pre) <> stage_env (application prod) <->
     reg <> "eu-central-1").
Proof.
  intros H.
  apply synth_Ok in H
    as (acc & reg & cli & pre & prod & Hacc & Hreg & _ & Henv1 & _ & Henv2 & Hp).
  exists acc, reg. do 2 eexists.
  split; [exact Hacc|]. split; [exact Hreg|].
  unfold pipeline_stages, region_of. rewrite Hp. cbn [stages].
  split; [reflexivity|]. cbn [application].
  rewrite Henv1, Henv2. cbn [region].
  split; [reflexivity|]. split; [reflexivity|]. split; [reflexivity|].
  split; intros Hne Heq; apply Hne; congruence.
Qed.

Lemma stage_environments_witness :
  exists a acc reg pre prod,
    synth (example_inputs "eu-west-1") example_oracle = Ok a /\
    os_environ (example_inputs "eu-west-1") !! "CDK_DEFAULT_ACCOUNT" = Some acc /\
    os_environ (example_inputs "eu-west-1") !! "CDK_DEFAULT_REGION" = Some reg /\
    pipeline_stages a = [pre; prod] /\
    stage_env (application pre) = {| account := acc; region := reg |} /\
    stage_env (application prod) = {| account := acc; region := "eu-central-1" |} /\
    (region_of pre <> region_of prod <-> reg <> "eu-central-1") /\
    (stage_env (application pre) <> stage_env (application prod) <->
     reg <> "eu-central-1").
Proof.
  eexists.
  refine ((fun H => match
             stage_environments (example_inputs "eu-west-1") example_oracle _ H
           with
           | ex_intro _ acc (ex_intro _ reg (ex_intro _ pre (ex_intro _ prod P))) =>
               ex_intro _ acc (ex_intro _ reg (ex_intro _ pre (ex_intro _ prod
                 (conj H P))))
           end) _).
  vm_compute. reflexivity.
Defined.

(** ** Determinism of the assembly *)

Lemma reads_ret {A} (x : A) : reads_within 0 (mret x).
Proof.
  intros o1 o2 n _. split; [reflexivity|].
  intros a n' H. inversion H. lia.
Qed.

Lemma reads_lift {A} (r : result A) : reads_within 0 (lift r).
Proof.
  intros o1 o2 n _. split; [reflexivity|].
  intros a n' H. apply lift_Ok in H as [_ ->]. lia.
Qed.

Lemma reads_bind {A B} k1 k2 (m : M nat A) (f : A -> M nat B) :
  reads_within k1 m ->
  (forall a, reads_within k2 (f a)) ->
  reads_within (k1 + k2) (m ≫= f).
Proof.
  intros Hm Hf o1 o2 n Hagree.
  destruct (Hm o1 o2 n) as [Heq Hbound].
  { intros j Hj. apply Hagree. lia. }
  rewrite !bind_unfold, <- Heq.
  destruct (m o1 n) as [[a n1]|e]; [|split; [reflexivity | discriminate]].
  specialize (Hbound a n1 eq_refl).
  destruct (Hf a o1 o2 n1) as [Heq2 Hbound2].
  { intros j Hj. apply Hagree. lia. }
  split; [exact Heq2|].
  intros b n' H. apply Hbound2 in H. lia.
Qed.

Lemma reads_weaken {A} k k' (m : M nat A) :
  reads_within k m -> (k <= k')%nat -> reads_within k' m.
Proof.
  intros Hm Hle o1 o2 n Hagree.
  destruct (Hm o1 o2 n) as [Heq Hbound].
  { intros j Hj. apply Hagree. lia. }
  split; [exact Heq|].
  intros a n' H. apply Hbound in H. lia.
Qed.

(** The builder reads at most the next response. *)
Lemma outcome_reads vpc env kwargs (o1 o2 : oracle) n :
  o1 n = o2 n ->
  outcome vpc env kwargs o1 n = outcome vpc env kwargs o2 n /\
  forall cs n',
    outcome vpc env kwargs o1 n = Ok (cs, n') -> (n <= n' <= n + 1)%nat.
Proof.
  intros Hn. unfold outcome. rewrite <- Hn.
  split; [reflexivity|].
  intros cs n'.
  destruct (default (PyStr CLUSTER_NAME) (kwargs !! CLUSTER_NAME));
    try discriminate.
  destruct (default (PyStr ENV) (kwargs !! ENV)); try discriminate.
  cbv zeta.
  destruct (is_True (default (PyBool true) (kwargs !! DEPLOY_AWS_LB_CONTROLLER))).
  - destruct (o1 n) as [doc|]; [|discriminate].
    destruct (statements_of doc) as [stmts|e]; [|discriminate].
    destruct (forallb is_object stmts); [|discriminate].
    intros H. inversion H. lia.
  - intros H. inversion H. lia.
Qed.

Lemma reads_platform id_ env outdir env_name kwargs :
  reads_within 1 (Platform.__init__ id_ env outdir env_name kwargs).
Proof.
  intros o1 o2 n Hagree.
  rewrite !platform_init_outcome.
  destruct (outcome_reads (PlatformNetwork "PlatformNetwork") env
              (Platform.eks_kwargs (default "eks-env" env_name) kwargs) o1 o2 n)
    as [Heq Hbound].
  { apply Hagree. lia. }
  rewrite <- Heq. split; [reflexivity|].
  intros st n'.
  destruct (outcome _ _ _ o1 n) as [[cs n1]|e]; [|discriminate].
  intros H. inversion H. subst. apply (Hbound cs n'). reflexivity.
Qed.

(** Composes the rules above along a sequence of steps. *)
Ltac reads :=
  repeat first
    [ apply reads_ret
    | apply reads_lift
    | apply reads_platform
    | eapply reads_bind; [|intros ?] ].

Lemma reads_pre_prod i p : reads_within 1 (Pipeline._add_pre_prod_stage i p).
Proof.
  unfold Pipeline._add_pre_prod_stage.
  eapply reads_weaken; [reads|]. cbn. lia.
Qed.

Lemma reads_prod i p : reads_within 1 (Pipeline._add_prod_stage i p).
Proof.
  unfold Pipeline._add_prod_stage.
  eapply reads_weaken; [reads|]. cbn. lia.
Qed.

Lemma reads_pipeline i id env : reads_within 2 (Pipeline.__init__ i id env).
Proof.
  unfold Pipeline.__init__.
  eapply reads_weaken.
  - eapply reads_bind; [apply reads_lift|intros cli].
    eapply reads_bind; [apply reads_pre_prod|intros p1].
    eapply reads_bind; [apply reads_prod|intros p2].
    apply reads_ret.
  - cbn. lia.
Qed.

Lemma reads_app i : reads_within 3 (app i).
Proof.
  unfold app.
  eapply reads_weaken.
  - do 4 (eapply reads_bind; [apply reads_lift|intros ?]).
    eapply reads_bind; [apply reads_platform|intros d].
    eapply reads_bind; [apply reads_pipeline|intros p].
    apply reads_ret.
  - cbn. lia.
Qed.

(** C7: two runs of the assembly on the same inputs, against servers
    that give the same responses to the three requests for the
    permission-policy document, produce the same result: the declared
    configuration is a function of the inputs and of those responses. *)
Theorem synthesis_deterministic i (o1 o2 : oracle) :
  (forall j, (j < 3)%nat -> o1 j = o2 j) ->
  synth i o1 = synth i o2.
Proof.
  intros Hagree. unfold synth.
  destruct (reads_app i o1 o2 0%nat) as [Heq _].
  { intros j Hj. apply Hagree. lia. }
  rewrite Heq. reflexivity.
Qed.

Lemma synthesis_deterministic_witness :
  synth (example_inputs "eu-west-1") example_oracle =
  synth (example_inputs "eu-west-1") three_answers.
Proof.
  apply synthesis_deterministic.
  intros j Hj. destruct j as [|[|[|j]]]; [reflexivity..|lia].
Defined.

(** * Further properties of the cluster builder *)

Lemma is_str_default param (kwargs : gmap string pyval) :
  is_str (default (PyStr param) (kwargs !! param)) = param_is_str param kwargs.
Proof. unfold param_is_str. destruct (kwargs !! param); reflexivity. Qed.

(** The outcome read on the keywords and the response, by cases. *)
Lemma build_cluster_cases vpc env kwargs o :
  build_cluster vpc env kwargs o =
  match default (PyStr CLUSTER_NAME) (kwargs !! CLUSTER_NAME),
        default (PyStr ENV) (kwargs !! ENV) with
  | PyStr a, PyStr b =>
      if wants DEPLOY_AWS_LB_CONTROLLER kwargs then
        match o 0%nat with
        | None => Raise RequestError
        | Some doc =>
            match statements_of doc with
            | Raise e => Raise e
            | Ok stmts =>
                if forallb is_object stmts
                then Ok (configuration vpc env a b
                           (wants DEPLOY_CLUSTER_AUTOSCALER kwargs) true stmts)
                else Raise RuntimeError
            end
        end
      else Ok (configuration vpc env a b
                 (wants DEPLOY_CLUSTER_AUTOSCALER kwargs) false [])
  | _, _ => Raise TypeError
  end.
Proof.
  rewrite build_cluster_outcome. unfold outcome, wants.
  destruct (default (PyStr CLUSTER_NAME) (kwargs !! CLUSTER_NAME)); try reflexivity.
  destruct (default (PyStr ENV) (kwargs !! ENV)); try reflexivity.
  cbv zeta.
  destruct (is_True (default (PyBool true) (kwargs !! DEPLOY_AWS_LB_CONTROLLER)));
    [|reflexivity].
  destruct (o 0%nat) as [doc|]; [|reflexivity].
  destruct (statements_of doc) as [stmts|e]; [|reflexivity].
  destruct (forallb is_object stmts); reflexivity.
Qed.

(** X1: the cluster is named after the two parameters, joined by a
    dash, and a parameter that is not supplied stands for its own name:
    a builder given neither declares the cluster "cluster_name-env_name". *)
Theorem cluster_named_after_parameters vpc env kwargs o cs :
  build_cluster vpc env kwargs o = Ok cs ->
  exists a b p,
    default (PyStr "cluster_name") (kwargs !! "cluster_name") = PyStr a /\
    default (PyStr "env_name") (kwargs !! "env_name") = PyStr b /\
    the_cluster cs = Some p /\
    cluster_name p = (a +:+ "-") +:+ b /\
    (kwargs !! "cluster_name" = None -> kwargs !! "env_name" = None ->
     cluster_name p = "cluster_name-env_name").
Proof.
  intros H.
  apply build_cluster_Ok in H as (a & b & stmts & Ha & Hb & ->).
  destruct (configuration_cluster vpc env a b
              (is_True (default (PyBool true) (kwargs !! DEPLOY_CLUSTER_AUTOSCALER)))
              (is_True (default (PyBool true) (kwargs !! DEPLOY_AWS_LB_CONTROLLER)))
              stmts) as (p & Hp & Hn & _).
  exists a, b, p. split; [exact Ha|]. split; [exact Hb|].
  split; [exact Hp|]. split; [exact Hn|].
  intros Hc He. unfold CLUSTER_NAME, ENV in Ha, Hb.
  rewrite Hc in Ha. rewrite He in Hb. cbn in Ha, Hb.
  inversion Ha. inversion Hb. subst a b. exact Hn.
Qed.

Lemma cluster_named_after_parameters_witness :
  exists a b p,
    default (PyStr "cluster_name") ((∅ : gmap string pyval) !! "cluster_name") =
      PyStr a /\
    default (PyStr "env_name") ((∅ : gmap string pyval) !! "env_name") = PyStr b /\
    the_cluster example_configuration = Some p /\
    cluster_name p = (a +:+ "-") +:+ b /\
    ((∅ : gmap string pyval) !! "cluster_name" = None ->
     (∅ : gmap string pyval) !! "env_name" = None ->
     cluster_name p = "cluster_name-env_name").
Proof.
  refine (cluster_named_after_parameters example_vpc example_env ∅
            example_oracle example_configuration _).
  vm_compute. reflexivity.
Defined.

(** X2: the builder looks up four keywords only; any other keyword is
    ignored without an error, whatever it carries. *)
Theorem unknown_keywords_ignored vpc env kwargs o k v :
  k ∉ builder_keywords ->
  build_cluster vpc env (<[k := v]> kwargs) o = build_cluster vpc env kwargs o.
Proof.
  intros Hk. unfold builder_keywords in Hk.
  rewrite !not_elem_of_cons in Hk.
  destruct Hk as (H1 & H2 & H3 & H4 & _).
  rewrite !build_cluster_outcome. unfold outcome.
  rewrite !lookup_insert_ne by congruence. reflexivity.
Qed.

Lemma unknown_keywords_ignored_witness :
  build_cluster example_vpc example_env
    (<["deploy_fargate" := PyBool true]> ∅) example_oracle =
  build_cluster example_vpc example_env ∅ example_oracle.
Proof.
  refine (unknown_keywords_ignored example_vpc example_env ∅ example_oracle
            "deploy_fargate" (PyBool true) _).
  unfold builder_keywords. rewrite !not_elem_of_cons.
  repeat split; try discriminate. apply not_elem_of_nil.
Defined.

(** X3: a cluster name or environment name that is supplied but is not
    a string makes the builder raise [TypeError], before any remote
    request: the server's answers play no part. *)
Theorem non_string_parameter_raises vpc env kwargs o param v :
  param = CLUSTER_NAME \/ param = ENV ->
  kwargs !! param = Some v ->
  is_str v = false ->
  build_cluster vpc env kwargs o = Raise TypeError.
Proof.
  intros Hparam Hv Hstr. rewrite build_cluster_cases.
  destruct Hparam as [-> | ->]; rewrite Hv; cbn [from_option id].
  - destruct v; try reflexivity. discriminate Hstr.
  - destruct (default (PyStr CLUSTER_NAME) (kwargs !! CLUSTER_NAME));
      try reflexivity.
    destruct v; try reflexivity. discriminate Hstr.
Qed.

Lemma non_string_parameter_raises_witness :
  build_cluster example_vpc example_env {[ CLUSTER_NAME := PyNone ]}
    (fun _ => None) = Raise TypeError.
Proof.
  refine (non_string_parameter_raises example_vpc example_env
            {[ CLUSTER_NAME := PyNone ]} (fun _ => None) CLUSTER_NAME PyNone _ _ _).
  - left. reflexivity.
  - vm_compute. reflexivity.
  - reflexivity.
Defined.

(** X4: the builder produces a configuration only if its two parameters
    are absent or strings and, when the load-balancer controller is
    wanted, the first response decodes to a document whose "Statement"
    iterates over objects. *)
Theorem builder_succeeds_only_if vpc env kwargs o cs :
  build_cluster vpc env kwargs o = Ok cs ->
  param_is_str CLUSTER_NAME kwargs = true /\
  param_is_str ENV kwargs = true /\
  (wants DEPLOY_AWS_LB_CONTROLLER kwargs = true ->
   statements_are_objects (o 0%nat) = true).
Proof.
  rewrite build_cluster_cases, <- !is_str_default. unfold statements_are_objects.
  destruct (default (PyStr CLUSTER_NAME) (kwargs !! CLUSTER_NAME));
    try discriminate.
  destruct (default (PyStr ENV) (kwargs !! ENV)); try discriminate.
  cbn [is_str].
  destruct (wants DEPLOY_AWS_LB_CONTROLLER kwargs).
  - destruct (o 0%nat) as [doc|]; [|discriminate].
    destruct (statements_of doc) as [stmts|e]; [|discriminate].
    destruct (forallb is_object stmts); [|discriminate].
    intros _. auto.
  - intros _. repeat split. intros H. discriminate H.
Qed.

Lemma builder_succeeds_only_if_witness :
  param_is_str CLUSTER_NAME ∅ = true /\
  param_is_str ENV ∅ = true /\
  (wants DEPLOY_AWS_LB_CONTROLLER ∅ = true ->
   statements_are_objects (example_oracle 0%nat) = true).
Proof.
  refine (builder_succeeds_only_if example_vpc example_env ∅ example_oracle
            example_configuration _).
  vm_compute. reflexivity.
Defined.

(** X5: when the load-balancer controller is wanted and the parameters
    are fine, the builder fails in three ways on the remote document: a
    failed request or undecodable body raises a request error; a
    document that is an object without the key "Statement" raises
    [KeyError]; a statement that is not an object raises [RuntimeError],
    wherever it stands in the list. *)
Theorem remote_document_failures vpc env kwargs o :
  param_is_str CLUSTER_NAME kwargs = true ->
  param_is_str ENV kwargs = true ->
  wants DEPLOY_AWS_LB_CONTROLLER kwargs = true ->
  (o 0%nat = None -> build_cluster vpc env kwargs o = Raise RequestError) /\
  (forall fields,
     o 0%nat = Some (JObj fields) ->
     "Statement" ∉ fields.*1 ->
     build_cluster vpc env kwargs o = Raise (KeyError "Statement")) /\
  (forall doc stmts,
     o 0%nat = Some doc ->
     statements_of doc = Ok stmts ->
     forallb is_object stmts = false ->
     build_cluster vpc env kwargs o = Raise RuntimeError).
Proof.
  rewrite <- !is_str_default. intros Hc He Hlb.
  rewrite build_cluster_cases, Hlb.
  destruct (default (PyStr CLUSTER_NAME) (kwargs !! CLUSTER_NAME));
    try discriminate Hc.
  destruct (default (PyStr ENV) (kwargs !! ENV)); try discriminate He.
  split; [|split].
  - intros ->. reflexivity.
  - intros fields -> Hkey.
    assert (statements_of (JObj fields) = Raise (KeyError "Statement")) as ->;
      [|reflexivity].
    unfold statements_of, json_subscript.
    destruct (List.find _ (rev fields)) as [kv|] eqn:E; [|reflexivity].
    exfalso. apply Hkey.
    apply find_some in E as [Hin Heq].
    apply String.eqb_eq in Heq. rewrite <- Heq.
    apply list_elem_of_fmap_2. apply list_elem_of_In.
    apply in_rev. exact Hin.
  - intros doc stmts -> -> ->. reflexivity.
Qed.

Lemma remote_document_failures_witness :
  build_cluster example_vpc example_env ∅
    (fun _ => Some (JObj [("Statement", JList [JStr "Allow"])])) =
  Raise RuntimeError.
Proof.
  refine (proj2 (proj2 (remote_document_failures example_vpc example_env ∅
                          (fun _ => Some (JObj [("Statement", JList [JStr "Allow"])]))
                          _ _ _))
            (JObj [("Statement", JList [JStr "Allow"])]) [JStr "Allow"] _ _ _);
    reflexivity.
Defined.

(** X6: when the load-balancer controller is deployed, the builder has
    added to its service account one statement per statement of the
    fetched document, in the document's order and unchanged, and has
    made no other addition to it.  (What the library renders from
    repeated statements is outside the model.) *)
Theorem lb_statements_added_in_order vpc env kwargs o cs :
  build_cluster vpc env kwargs o = Ok cs ->
  wants DEPLOY_AWS_LB_CONTROLLER kwargs = true ->
  exists doc stmts,
    o 0%nat = Some doc /\
    statements_of doc = Ok stmts /\
    policy_of "aws-load-balancer-controller" cs = Some stmts.
Proof.
  rewrite build_cluster_cases. intros H Hlb. rewrite Hlb in H.
  destruct (default (PyStr CLUSTER_NAME) (kwargs !! CLUSTER_NAME)) as [| | |a];
    try discriminate H.
  destruct (default (PyStr ENV) (kwargs !! ENV)) as [| | |b]; try discriminate H.
  destruct (o 0%nat) as [doc|]; [|discriminate H].
  destruct (statements_of doc) as [stmts|e] eqn:E; [|discriminate H].
  destruct (forallb is_object stmts); [|discriminate H].
  inversion H. subst cs. exists doc, stmts.
  split; [reflexivity|]. split; [exact E|].
  destruct (wants DEPLOY_CLUSTER_AUTOSCALER kwargs); vm_compute; reflexivity.
Qed.

Lemma lb_statements_added_in_order_witness :
  exists doc stmts,
    example_oracle 0%nat = Some doc /\
    statements_of doc = Ok stmts /\
    policy_of "aws-load-balancer-controller" example_configuration = Some stmts.
Proof.
  refine (lb_statements_added_in_order example_vpc example_env ∅
            example_oracle example_configuration _ _);
    vm_compute; reflexivity.
Defined.

Lemma configuration_prefix vpc env a b ca lb stmts :
  configuration vpc env a b false false [] `prefix_of`
  configuration vpc env a b ca lb stmts.
Proof.
  exists (drop 14 (configuration vpc env a b ca lb stmts)).
  destruct ca, lb; vm_compute; reflexivity.
Qed.

(** X7: the two flags only append constructs.  The configuration built
    with both add-ons switched off is an initial segment of the one
    built with the flags as given: an optional add-on never alters a
    construct declared without it. *)
Theorem optional_addons_only_append vpc env kwargs o cs :
  build_cluster vpc env kwargs o = Ok cs ->
  exists base,
    build_cluster vpc env
      (<[DEPLOY_CLUSTER_AUTOSCALER := PyBool false]>
         (<[DEPLOY_AWS_LB_CONTROLLER := PyBool false]> kwargs)) o = Ok base /\
    base `prefix_of` cs.
Proof.
  intros H.
  apply build_cluster_Ok in H as (a & b & stmts & Ha & Hb & ->).
  exists (configuration vpc env a b false false []).
  split; [|apply configuration_prefix].
  rewrite build_cluster_cases. unfold wants.
  rewrite lookup_insert_eq.
  rewrite !(lookup_insert_ne _ DEPLOY_CLUSTER_AUTOSCALER) by discriminate.
  rewrite lookup_insert_eq.
  rewrite !(lookup_insert_ne _ DEPLOY_AWS_LB_CONTROLLER) by discriminate.
  rewrite Ha, Hb. reflexivity.
Qed.

Lemma optional_addons_only_append_witness :
  exists base,
    build_cluster example_vpc example_env
      (<[DEPLOY_CLUSTER_AUTOSCALER := PyBool false]>
         (<[DEPLOY_AWS_LB_CONTROLLER := PyBool false]> ∅)) example_oracle =
    Ok base /\
    base `prefix_of` example_configuration.
Proof.
  refine (optional_addons_only_append example_vpc example_env ∅ example_oracle
            example_configuration _).
  vm_compute. reflexivity.
Defined.

(** X8: no two constructs of a produced configuration share an id. *)
Theorem construct_ids_unique vpc env kwargs o cs :
  build_cluster vpc env kwargs o = Ok cs ->
  NoDup (node_id <$> cs).
Proof.
  intros H.
  apply build_cluster_Ok in H as (a & b & stmts & _ & _ & ->).
  rewrite configuration_ids.
  destruct (is_True _), (is_True _);
    refine (bool_decide_unpack _ _); vm_compute; exact I.
Qed.

Lemma construct_ids_unique_witness : NoDup (node_id <$> example_configuration).
Proof.
  refine (construct_ids_unique example_vpc example_env ∅ example_oracle
            example_configuration _).
  vm_compute. reflexivity.
Defined.

(** What the check [ordered_after_declared] establishes. *)
Lemma ordered_after_declared_sound seen cs :
  ordered_after_declared seen cs = true ->
  forall i c d,
    cs !! i = Some c ->
    d ∈ node_dependencies c ->
    d ∈ seen ++ (node_id <$> take i cs).
Proof.
  revert seen. induction cs as [|c0 cs IH]; intros seen H i c d Hi Hd.
  - destruct i; discriminate Hi.
  - cbn [ordered_after_declared] in H.
    apply andb_true_iff in H as [Hdeps Hrest].
    destruct i as [|i].
    + cbn in Hi. inversion Hi. subst c0.
      rewrite forallb_forall in Hdeps.
      apply list_elem_of_In in Hd.
      specialize (Hdeps d Hd). apply bool_decide_eq_true in Hdeps.
      cbn. rewrite app_nil_r. exact Hdeps.
    + cbn in Hi. specialize (IH _ Hrest i c d Hi Hd).
      cbn [take fmap list_fmap]. rewrite <- app_assoc in IH. exact IH.
Qed.

(** X9: every explicit ordering dependency of a produced configuration
    points to a construct declared earlier in it, so the dependencies
    form no cycle and name nothing that is missing. *)
Theorem dependencies_point_backwards vpc env kwargs o cs :
  build_cluster vpc env kwargs o = Ok cs ->
  forall i c d,
    cs !! i = Some c ->
    d ∈ node_dependencies c ->
    exists j, (j < i)%nat /\ (node_id <$> cs) !! j = Some d.
Proof.
  intros H i c d Hi Hd.
  assert (ordered_after_declared [] cs = true) as Hord.
  { apply build_cluster_Ok in H as (a & b & stmts & _ & _ & ->).
    destruct (is_True _), (is_True _); vm_compute; reflexivity. }
  pose proof (ordered_after_declared_sound [] cs Hord i c d Hi Hd) as Hin.
  rewrite app_nil_l in Hin.
  apply list_elem_of_lookup in Hin as [j Hj].
  exists j.
  assert (j < i)%nat as Hlt.
  { pose proof (lookup_lt_Some _ _ _ Hj) as Hlen.
    rewrite length_fmap, length_take in Hlen. lia. }
  split; [exact Hlt|].
  rewrite list_lookup_fmap in Hj. rewrite lookup_take_lt in Hj by exact Hlt.
  rewrite list_lookup_fmap. exact Hj.
Qed.

Lemma dependencies_point_backwards_witness :
  exists j, (j < 12)%nat /\
    (node_id <$> example_configuration) !! j = Some ssm_agent_manifest.
Proof.
  refine (dependencies_point_backwards example_vpc example_env ∅ example_oracle
            example_configuration _ 12%nat
            {| node_id := "EKSBastion";
               node_body := _;
               node_dependencies := [ssm_agent_manifest] |}
            ssm_agent_manifest _ _).
  - vm_compute. reflexivity.
  - vm_compute. reflexivity.
  - apply list_elem_of_here.
Defined.

(** X10: in every produced configuration each role or security group
    that a cluster, node pool, instance profile or instance names is
    declared in the configuration as a role, respectively a security
    group. *)
Theorem references_are_declared vpc env kwargs o cs :
  build_cluster vpc env kwargs o = Ok cs ->
  forallb (references_resolve cs) cs = true.
Proof.
  intros H.
  apply build_cluster_Ok in H as (a & b & stmts & _ & _ & ->).
  destruct (is_True _), (is_True _); vm_compute; reflexivity.
Qed.

Lemma references_are_declared_witness :
  forallb (references_resolve example_configuration) example_configuration = true.
Proof.
  refine (references_are_declared example_vpc example_env ∅ example_oracle
            example_configuration _).
  vm_compute. reflexivity.
Defined.

Lemma configuration_charts vpc env a b ca lb stmts :
  let cs := configuration vpc env a b ca lb stmts in
  (ca = true ->
   exists ch,
     chart_of "chart-cluster-autoscaler" cs = Some ch /\
     service_account_of "cluster_autoscaler" cs =
       Some ("cluster-autoscaler", chart_namespace ch) /\
     json_path ["autoDiscovery"; "clusterName"] (values ch) =
       Some (JStr ((a +:+ "-") +:+ b)) /\
     json_path ["awsRegion"] (values ch) = Some (JStr (region env)) /\
     json_path ["rbac"; "serviceAccount"; "name"] (values ch) =
       Some (JStr "cluster-autoscaler") /\
     json_path ["rbac"; "serviceAccount"; "create"] (values ch) =
       Some (JBool false)) /\
  (lb = true ->
   exists ch,
     chart_of "chart-aws-load-balancer-controller" cs = Some ch /\
     service_account_of "aws-load-balancer-controller" cs =
       Some ("aws-load-balancer-controller", chart_namespace ch) /\
     json_path ["clusterName"] (values ch) = Some (JStr ((a +:+ "-") +:+ b)) /\
     json_path ["region"] (values ch) = Some (JStr (region env)) /\
     json_path ["vpcId"] (values ch) = Some (JStr (vpc_id vpc)) /\
     json_path ["serviceAccount"; "name"] (values ch) =
       Some (JStr "aws-load-balancer-controller") /\
     json_path ["serviceAccount"; "create"] (values ch) = Some (JBool false)).
Proof.
  cbv zeta. split; intros ->.
  - destruct lb; eexists; (split; [vm_compute; reflexivity|]);
      repeat split; vm_compute; reflexivity.
  - destruct ca; eexists; (split; [vm_compute; reflexivity|]);
      repeat split; vm_compute; reflexivity.
Qed.

(** X11: each chart the builder installs is wired to what the builder
    declared: it carries the cluster's name and the environment's region,
    it does not create a service account of its own, and the service
    account it names is the one declared for it, in the chart's
    namespace.  The load-balancer chart also carries the network's id. *)
Theorem charts_wired_to_cluster vpc env kwargs o cs :
  build_cluster vpc env kwargs o = Ok cs ->
  exists p,
    the_cluster cs = Some p /\
    (wants DEPLOY_CLUSTER_AUTOSCALER kwargs = true ->
     exists ch n,
       chart_of "chart-cluster-autoscaler" cs = Some ch /\
       service_account_of "cluster_autoscaler" cs = Some (n, chart_namespace ch) /\
       json_path ["autoDiscovery"; "clusterName"] (values ch) =
         Some (JStr (cluster_name p)) /\
       json_path ["awsRegion"] (values ch) = Some (JStr (region env)) /\
       json_path ["rbac"; "serviceAccount"; "name"] (values ch) = Some (JStr n) /\
       json_path ["rbac"; "serviceAccount"; "create"] (values ch) =
         Some (JBool false)) /\
    (wants DEPLOY_AWS_LB_CONTROLLER kwargs = true ->
     exists ch n,
       chart_of "chart-aws-load-balancer-controller" cs = Some ch /\
       service_account_of "aws-load-balancer-controller" cs =
         Some (n, chart_namespace ch) /\
       json_path ["clusterName"] (values ch) = Some (JStr (cluster_name p)) /\
       json_path ["region"] (values ch) = Some (JStr (region env)) /\
       json_path ["vpcId"] (values ch) = Some (JStr (vpc_id vpc)) /\
       json_path ["serviceAccount"; "name"] (values ch) = Some (JStr n) /\
       json_path ["serviceAccount"; "create"] (values ch) = Some (JBool false)).
Proof.
  intros H.
  apply build_cluster_Ok in H as (a & b & stmts & _ & _ & ->).
  fold (wants DEPLOY_CLUSTER_AUTOSCALER kwargs).
  fold (wants DEPLOY_AWS_LB_CONTROLLER kwargs).
  set (ca := wants DEPLOY_CLUSTER_AUTOSCALER kwargs).
  set (lb := wants DEPLOY_AWS_LB_CONTROLLER kwargs).
  destruct (configuration_cluster vpc env a b ca lb stmts) as (p & Hp & Hn & _).
  destruct (configuration_charts vpc env a b ca lb stmts) as [Hca Hlb].
  exists p. split; [exact Hp|]. rewrite Hn. split.
  - intros Hw. destruct (Hca Hw) as (ch & H1 & H2 & H3 & H4 & H5 & H6).
    exists ch, "cluster-autoscaler". auto 10.
  - intros Hw. destruct (Hlb Hw) as (ch & H1 & H2 & H3 & H4 & H5 & H6 & H7).
    exists ch, "aws-load-balancer-controller". auto 10.
Qed.

Lemma charts_wired_to_cluster_witness :
  exists p,
    the_cluster example_configuration = Some p /\
    (wants DEPLOY_CLUSTER_AUTOSCALER ∅ = true ->
     exists ch n,
       chart_of "chart-cluster-autoscaler" example_configuration = Some ch /\
       service_account_of "cluster_autoscaler" example_configuration =
         Some (n, chart_namespace ch) /\
       json_path ["autoDiscovery"; "clusterName"] (values ch) =
         Some (JStr (cluster_name p)) /\
       json_path ["awsRegion"] (values ch) = Some (JStr (region example_env)) /\
       json_path ["rbac"; "serviceAccount"; "name"] (values ch) = Some (JStr n) /\
       json_path ["rbac"; "serviceAccount"; "create"] (values ch) =
         Some (JBool false)) /\
    (wants DEPLOY_AWS_LB_CONTROLLER ∅ = true ->
     exists ch n,
       chart_of "chart-aws-load-balancer-controller" example_configuration =
         Some ch /\
       service_account_of "aws-load-balancer-controller" example_configuration =
         Some (n, chart_namespace ch) /\
       json_path ["clusterName"] (values ch) = Some (JStr (cluster_name p)) /\
       json_path ["region"] (values ch) = Some (JStr (region example_env)) /\
       json_path ["vpcId"] (values ch) = Some (JStr (vpc_id example_vpc)) /\
       json_path ["serviceAccount"; "name"] (values ch) = Some (JStr n) /\
       json_path ["serviceAccount"; "create"] (values ch) = Some (JBool false)).
Proof.
  refine (charts_wired_to_cluster example_vpc example_env ∅ example_oracle
            example_configuration _).
  vm_compute. reflexivity.
Defined.

(** X12: the bastion of every produced configuration is named after the
    cluster, runs under the cluster's administrative role in a public
    subnet, is reachable from any address on port 8080 only, and is let
    into the cluster's own security group; its bootstrap script has 26
    commands, one of which points kubectl at this cluster in this
    region, and the last of which bootstraps GitOps on the path of this
    cluster. *)
Theorem bastion_bound_to_cluster vpc env kwargs o cs :
  build_cluster vpc env kwargs o = Ok cs ->
  exists p inst,
    the_cluster cs = Some p /\
    the_bastion cs = Some inst /\
    instance_name inst = cluster_name p +:+ "-bastion" /\
    instance_role inst = masters_role p /\
    instance_subnets inst = subnet_type_PUBLIC /\
    ingress_of (instance_security_group inst) cs = Some [("0.0.0.0/0", "8080")] /\
    cluster_security_group_ingress p =
      [(instance_security_group inst, "ALL TRAFFIC")] /\
    List.length (user_data inst) = 26%nat /\
    user_data inst !! 17%nat =
      Some ("aws eks update-kubeconfig --name " +:+ cluster_name p +:+
            " --region " +:+ region env) /\
    user_data inst !! 25%nat =
      Some ("KUBECONFIG=~/.kube/config flux bootstrap github " +:+
            PlatformEKS.continuation_indent +:+ "--owner=$GITHUB_USER " +:+
            PlatformEKS.continuation_indent +:+ "--repository=flux-system-eks " +:+
            PlatformEKS.continuation_indent +:+ "--path=clusters/" +:+
            cluster_name p +:+ " " +:+
            PlatformEKS.continuation_indent +:+ "--personal").
Proof.
  intros H.
  apply build_cluster_Ok in H as (a & b & stmts & _ & _ & ->).
  destruct (is_True _), (is_True _);
    do 2 eexists;
    (split; [vm_compute; reflexivity|]);
    (split; [vm_compute; reflexivity|]);
    repeat split; vm_compute; reflexivity.
Qed.

Lemma bastion_bound_to_cluster_witness :
  exists p inst,
    the_cluster example_configuration = Some p /\
    the_bastion example_configuration = Some inst /\
    instance_name inst = cluster_name p +:+ "-bastion" /\
    instance_role inst = masters_role p /\
    instance_subnets inst = subnet_type_PUBLIC /\
    ingress_of (instance_security_group inst) example_configuration =
      Some [("0.0.0.0/0", "8080")] /\
    cluster_security_group_ingress p =
      [(instance_security_group inst, "ALL TRAFFIC")] /\
    List.length (user_data inst) = 26%nat /\
    user_data inst !! 17%nat =
      Some ("aws eks update-kubeconfig --name " +:+ cluster_name p +:+
            " --region " +:+ region example_env) /\
    user_data inst !! 25%nat =
      Some ("KUBECONFIG=~/.kube/config flux bootstrap github " +:+
            PlatformEKS.continuation_indent +:+ "--owner=$GITHUB_USER " +:+
            PlatformEKS.continuation_indent +:+ "--repository=flux-system-eks " +:+
            PlatformEKS.continuation_indent +:+ "--path=clusters/" +:+
            cluster_name p +:+ " " +:+
            PlatformEKS.continuation_indent +:+ "--personal").
Proof.
  refine (bastion_bound_to_cluster example_vpc example_env ∅ example_oracle
            example_configuration _).
  vm_compute. reflexivity.
Defined.

(** X13: the administrative role ends with exactly two policy
    statements and one managed policy.  Its permission to read the two
    GitHub secrets names the region eu-west-1 whatever the environment,
    while the bastion's bootstrap commands read both secrets in the
    environment's region. *)
Theorem secrets_permission_pinned_to_eu_west_1 vpc env kwargs o cs :
  build_cluster vpc env kwargs o = Ok cs ->
  policy_of "ClusterAdminRole" cs =
    Some [JObj [("Effect", JStr "Allow");
                ("Action", JList [JStr "eks:DescribeCluster"]);
                ("Resource", JStr "*")];
          JObj [("Effect", JStr "Allow");
                ("Action", JStr "secretsmanager:GetSecretValue");
                ("Resource",
                 JList
                   [JStr "arn:aws:secretsmanager:eu-west-1:*:secret:github-token*";
                    JStr "arn:aws:secretsmanager:eu-west-1:*:secret:github-user*"])]] /\
  managed_policies_of "ClusterAdminRole" cs = Some ["AmazonSSMManagedInstanceCore"] /\
  exists inst,
    the_bastion cs = Some inst /\
    user_data inst !! 23%nat =
      Some ("export GITHUB_TOKEN=$(aws --region " +:+ region env +:+
            " secretsmanager get-secret-value --secret-id github-token --query 'SecretString' --output text)") /\
    user_data inst !! 24%nat =
      Some ("export GITHUB_USER=$(aws --region " +:+ region env +:+
            " secretsmanager get-secret-value --secret-id github-user --query 'SecretString' --output text)").
Proof.
  intros H.
  apply build_cluster_Ok in H as (a & b & stmts & _ & _ & ->).
  destruct (is_True _), (is_True _);
    (split; [vm_compute; reflexivity|]);
    (split; [vm_compute; reflexivity|]);
    eexists; (split; [vm_compute; reflexivity|]);
    split; vm_compute; reflexivity.
Qed.

Lemma secrets_permission_pinned_to_eu_west_1_witness :
  managed_policies_of "ClusterAdminRole" example_configuration =
  Some ["AmazonSSMManagedInstanceCore"].
Proof.
  refine (proj1 (proj2 (secrets_permission_pinned_to_eu_west_1 example_vpc
                          example_env ∅ example_oracle example_configuration _))).
  vm_compute. reflexivity.
Defined.

(** X14: every node pool of a produced configuration has its sizes in
    order (0 <= minimum <= desired <= maximum), sits in the private
    subnet group, and runs under a role of its own that is declared
    with the four managed policies a worker node requires. *)
Theorem node_pools_well_formed vpc env kwargs o cs :
  build_cluster vpc env kwargs o = Ok cs ->
  Forall (fun p =>
            sizes_in_order p = true /\
            subnets p = subnet_group_name "Private" /\
            managed_policies_of (node_role p) cs =
              Some PlatformEKS.required_nodegroup_managed_policy)
         (nodegroups cs) /\
  NoDup (node_role <$> nodegroups cs).
Proof.
  intros H.
  apply build_cluster_Ok in H as (a & b & stmts & _ & _ & ->).
  rewrite configuration_nodegroups. split.
  - destruct (is_True _), (is_True _);
      repeat (constructor; [repeat split; vm_compute; reflexivity|]);
      constructor.
  - refine (bool_decide_unpack _ _). vm_compute. exact I.
Qed.

Lemma node_pools_well_formed_witness :
  Forall (fun p =>
            sizes_in_order p = true /\
            subnets p = subnet_group_name "Private" /\
            managed_policies_of (node_role p) example_configuration =
              Some PlatformEKS.required_nodegroup_managed_policy)
         (nodegroups example_configuration) /\
  NoDup (node_role <$> nodegroups example_configuration).
Proof.
  refine (node_pools_well_formed example_vpc example_env ∅ example_oracle
            example_configuration _).
  vm_compute. reflexivity.
Defined.

(** * Further properties of the composer and of the pipeline *)

(** The composer's outcome, by cases on the cluster name it is given
    and on the next response. *)
Lemma platform_init_cases id_ env outdir env_name kwargs o n :
  Platform.__init__ id_ env outdir env_name kwargs o n =
  match default (PyStr "eks") (kwargs !! "cluster_name") with
  | PyStr a =>
      match o n with
      | None => Raise RequestError
      | Some doc =>
          match statements_of doc with
          | Raise e => Raise e
          | Ok stmts =>
              if forallb is_object stmts
              then Ok ({| stage_id := id_;
                          stage_env := env;
                          stage_outdir := outdir;
                          Network := PlatformNetwork "PlatformNetwork";
                          EKS := configuration (PlatformNetwork "PlatformNetwork")
                                   env a (default "eks-env" env_name)
                                   true true stmts |}, S n)
              else Raise RuntimeError
          end
      end
  | _ => Raise TypeError
  end.
Proof.
  rewrite platform_init_outcome. unfold outcome.
  rewrite eks_kwargs_cluster_name, eks_kwargs_env_name.
  destruct (eks_kwargs_flags (default "eks-env" env_name) kwargs) as [Hca Hlb].
  rewrite Hca, Hlb.
  cbn [from_option id is_True].
  destruct (default (PyStr "eks") (kwargs !! "cluster_name")); try reflexivity.
  destruct (o n) as [doc|]; [|reflexivity].
  destruct (statements_of doc) as [stmts|e]; [|reflexivity].
  destruct (forallb is_object stmts); reflexivity.
Qed.

Lemma platform_init_inv id_ env outdir env_name kwargs o n st n' :
  Platform.__init__ id_ env outdir env_name kwargs o n = Ok (st, n') ->
  n' = S n /\ statements_are_objects (o n) = true /\
  exists a stmts,
    default (PyStr "eks") (kwargs !! "cluster_name") = PyStr a /\
    st = {| stage_id := id_;
            stage_env := env;
            stage_outdir := outdir;
            Network := PlatformNetwork "PlatformNetwork";
            EKS := configuration (PlatformNetwork "PlatformNetwork") env a
                     (default "eks-env" env_name) true true stmts |}.
Proof.
  rewrite platform_init_cases. unfold statements_are_objects.
  destruct (default (PyStr "eks") (kwargs !! "cluster_name")) as [| | |a];
    try discriminate.
  destruct (o n) as [doc|]; [|discriminate].
  destruct (statements_of doc) as [stmts|e]; [|discriminate].
  destruct (forallb is_object stmts); [|discriminate].
  intros H. inversion H. subst. repeat split. exists a, stmts. split; reflexivity.
Qed.

Lemma stage_cluster_name_configuration id_ env outdir net a b ca lb stmts :
  stage_cluster_name
    {| stage_id := id_; stage_env := env; stage_outdir := outdir; Network := net;
       EKS := configuration net env a b ca lb stmts |} =
  Some ((a +:+ "-") +:+ b).
Proof.
  unfold stage_cluster_name. cbn [EKS].
  destruct (configuration_cluster net env a b ca lb stmts) as (p & Hp & Hn & _).
  rewrite Hp. cbn [fmap option_fmap option_map]. rewrite Hn. reflexivity.
Qed.

(** X15: the composer never forwards a feature flag to the cluster
    builder.  Whatever keywords it is given, also flags set to [False],
    every stage it produces has the autoscaler and the load-balancer
    controller fully deployed, and it has consumed one remote response. *)
Theorem composer_always_installs_addons id_ env outdir env_name kwargs o n st n' :
  Platform.__init__ id_ env outdir env_name kwargs o n = Ok (st, n') ->
  fully_deployed ClusterAutoscaler (EKS st) = true /\
  fully_deployed LoadBalancerController (EKS st) = true /\
  n' = S n.
Proof.
  intros H.
  apply platform_init_inv in H as (-> & _ & a & stmts & _ & ->).
  cbn [EKS].
  split; [apply configuration_autoscaler|].
  split; [apply configuration_lb_controller | reflexivity].
Qed.

Lemma composer_always_installs_addons_witness :
  fully_deployed ClusterAutoscaler (EKS example_dev_stage) = true /\
  fully_deployed LoadBalancerController (EKS example_dev_stage) = true /\
  1%nat = 1%nat.
Proof.
  refine (composer_always_installs_addons "Platform-Dev" example_env None
            (Some "dev")
            {[ "cluster_name" := PyStr "eks-test";
               DEPLOY_CLUSTER_AUTOSCALER := PyBool false ]}
            example_oracle 0 example_dev_stage 1 _).
  vm_compute. reflexivity.
Defined.

(** X16: of its keywords the composer reads the cluster name only: two
    keyword dictionaries that agree on it give the same result. *)
Theorem composer_reads_cluster_name_only id_ env outdir env_name kwargs kwargs' o :
  kwargs !! "cluster_name" = kwargs' !! "cluster_name" ->
  compose id_ env outdir env_name kwargs o =
  compose id_ env outdir env_name kwargs' o.
Proof.
  intros H. unfold compose. rewrite !platform_init_cases, H. reflexivity.
Qed.

Lemma composer_reads_cluster_name_only_witness :
  compose "Platform-Dev" example_env None (Some "dev")
    {[ "cluster_name" := PyStr "eks-test" ]} example_oracle =
  compose "Platform-Dev" example_env None (Some "dev")
    {[ "cluster_name" := PyStr "eks-test";
       DEPLOY_AWS_LB_CONTROLLER := PyBool false ]} example_oracle.
Proof.
  refine (composer_reads_cluster_name_only "Platform-Dev" example_env None
            (Some "dev") _ _ example_oracle _).
  vm_compute. reflexivity.
Defined.

(** X17: the cluster of a stage is named after the composer's cluster
    name, "eks" when none is given, and its environment name, "eks-env"
    when none is given, joined by a dash. *)
Theorem composer_names_cluster id_ env outdir env_name kwargs o st :
  compose id_ env outdir env_name kwargs o = Ok st ->
  exists a,
    default (PyStr "eks") (kwargs !! "cluster_name") = PyStr a /\
    stage_cluster_name st = Some ((a +:+ "-") +:+ default "eks-env" env_name).
Proof.
  unfold compose. intros H.
  destruct (Platform.__init__ id_ env outdir env_name kwargs o 0%nat)
    as [[st' n']|e] eqn:E; [|discriminate].
  inversion H. subst st'. clear H.
  apply platform_init_inv in E as (_ & _ & a & stmts & Ha & ->).
  exists a. split; [exact Ha|]. apply stage_cluster_name_configuration.
Qed.

Lemma composer_names_cluster_witness :
  exists a,
    default (PyStr "eks")
      (({[ "cluster_name" := PyStr "eks-test" ]} : gmap string pyval)
         !! "cluster_name") = PyStr a /\
    stage_cluster_name example_dev_stage =
    Some ((a +:+ "-") +:+ default "eks-env" (Some "dev")).
Proof.
  refine (composer_names_cluster "Platform-Dev" example_env None (Some "dev")
            {[ "cluster_name" := PyStr "eks-test" ]} example_oracle
            example_dev_stage _).
  vm_compute. reflexivity.
Defined.

(** A successful run of the application, step by step: the values it
    read, the three stages it composed and the requests it made. *)
Lemma app_inv i o a n :
  app i o 0%nat = Ok (a, n) ->
  exists acc reg cli sd sp sq,
    os_environ i !! "CDK_DEFAULT_ACCOUNT" = Some acc /\
    os_environ i !! "CDK_DEFAULT_REGION" = Some reg /\
    Pipeline._get_cdk_cli_version i = Ok cli /\
    Platform.__init__ "Platform-Dev" {| account := acc; region := reg |} None
      (Some "dev") {[ "cluster_name" := PyStr "eks-test" ]} o 0%nat = Ok (sd, 1%nat) /\
    Platform.__init__ "Platform-PreProd" {| account := acc; region := reg |} None
      (Some "pre-prod") ∅ o 1%nat = Ok (sp, 2%nat) /\
    Platform.__init__ "Platform-Prod"
      {| account := acc; region := "eu-central-1" |} None None ∅ o 2%nat =
      Ok (sq, 3%nat) /\
    n = 3%nat /\
    dev a = sd /\
    application <$> pipeline_stages a = [sp; sq] /\
    cdk_cli_version (cdk_pipeline (pipeline a)) = cli.
Proof.
  intros E.
  unfold app in E. inv_bind E.
  apply ret_Ok in E as [-> ->].
  match goal with
  | H : Pipeline.__init__ _ _ _ _ _ = Ok _ |- _ =>
      unfold Pipeline.__init__ in H; inv_bind H; apply ret_Ok in H as [-> ->]
  end.
  match goal with
  | H : Pipeline._add_pre_prod_stage _ _ _ _ = Ok _ |- _ =>
      unfold Pipeline._add_pre_prod_stage in H; inv_bind H;
      apply ret_Ok in H as [-> ->]
  end.
  match goal with
  | H : Pipeline._add_prod_stage _ _ _ _ = Ok _ |- _ =>
      unfold Pipeline._add_prod_stage in H; inv_bind H;
      apply ret_Ok in H as [-> ->]
  end.
  repeat match goal with
  | H : subscript _ _ = Ok _ |- _ => apply subscript_Ok in H
  end.
  repeat match goal with
  | H1 : ?d !! ?k = Some ?x, H2 : ?d !! ?k = Some ?y |- _ =>
      rewrite H1 in H2; injection H2 as <-
  end.
  repeat match goal with
  | H : Platform.__init__ _ _ _ _ _ _ ?n = Ok (_, ?m) |- _ =>
      is_var m;
      let H' := fresh in
      pose proof (platform_init_inv _ _ _ _ _ _ _ _ _ H) as [H' _]; subst m
  end.
  do 6 eexists.
  repeat (split; [eassumption || reflexivity|]). reflexivity.
Qed.

(** X18: the synthesis produces an assembly only if both environment
    variables are set, the CDK version can be read from [package.json],
    and each of the first three responses of the remote server decodes
    to a document whose "Statement" iterates over objects. *)
Theorem synthesis_succeeds_only_if i o a :
  synth i o = Ok a ->
  is_Some (os_environ i !! "CDK_DEFAULT_ACCOUNT") /\
  is_Some (os_environ i !! "CDK_DEFAULT_REGION") /\
  (exists cli, Pipeline._get_cdk_cli_version i = Ok cli) /\
  statements_are_objects (o 0%nat) = true /\
  statements_are_objects (o 1%nat) = true /\
  statements_are_objects (o 2%nat) = true.
Proof.
  unfold synth. intros H.
  destruct (app i o 0%nat) as [[a' n]|e] eqn:E; [|discriminate].
  apply app_inv in E
    as (acc & reg & cli & sd & sp & sq & Hacc & Hreg & Hcli & Hd & Hp & Hq & _).
  apply platform_init_inv in Hd as (_ & H0 & _).
  apply platform_init_inv in Hp as (_ & H1 & _).
  apply platform_init_inv in Hq as (_ & H2 & _).
  rewrite Hacc, Hreg. eauto 10.
Qed.

Lemma synthesis_succeeds_only_if_witness :
  is_Some (os_environ (example_inputs "eu-west-1") !! "CDK_DEFAULT_ACCOUNT") /\
  is_Some (os_environ (example_inputs "eu-west-1") !! "CDK_DEFAULT_REGION") /\
  (exists cli, Pipeline._get_cdk_cli_version (example_inputs "eu-west-1") = Ok cli) /\
  statements_are_objects (example_oracle 0%nat) = true /\
  statements_are_objects (example_oracle 1%nat) = true /\
  statements_are_objects (example_oracle 2%nat) = true.
Proof.
  destruct (synth (example_inputs "eu-west-1") example_oracle) as [a|e] eqn:E;
    [|vm_compute in E; discriminate E].
  exact (synthesis_succeeds_only_if (example_inputs "eu-west-1") example_oracle a E).
Defined.

(** X19: every successful synthesis fetches the remote document exactly
    three times, once for each of the stages it composes, in the order
    development, pre-production, production. *)
Theorem synthesis_makes_three_requests i o a n :
  app i o 0%nat = Ok (a, n) ->
  n = 3%nat /\
  exists sd sp sq env_d env_p env_q,
    Platform.__init__ "Platform-Dev" env_d None (Some "dev")
      {[ "cluster_name" := PyStr "eks-test" ]} o 0%nat = Ok (sd, 1%nat) /\
    Platform.__init__ "Platform-PreProd" env_p None (Some "pre-prod") ∅ o 1%nat =
      Ok (sp, 2%nat) /\
    Platform.__init__ "Platform-Prod" env_q None None ∅ o 2%nat = Ok (sq, 3%nat) /\
    dev a = sd /\
    application <$> pipeline_stages a = [sp; sq].
Proof.
  intros E.
  apply app_inv in E
    as (acc & reg & cli & sd & sp & sq & _ & _ & _ & Hd & Hp & Hq & Hn & Hdev & Hst & _).
  split; [exact Hn|].
  exists sd, sp, sq.
  exists {| account := acc; region := reg |}, {| account := acc; region := reg |},
    {| account := acc; region := "eu-central-1" |}.
  repeat (split; [assumption|]). assumption.
Qed.

Lemma synthesis_makes_three_requests_witness :
  exists a, app (example_inputs "eu-west-1") example_oracle 0%nat = Ok (a, 3%nat).
Proof.
  destruct (app (example_inputs "eu-west-1") example_oracle 0%nat)
    as [[a n]|e] eqn:E; [|vm_compute in E; discriminate E].
  exists a.
  rewrite (proj1 (synthesis_makes_three_requests _ _ _ _ E)). reflexivity.
Defined.

(** X20: in every assembly the development stage declares the cluster
    "eks-test-dev", the pre-production stage "eks-pre-prod" and the
    production stage, which is given no environment name, "eks-eks-env". *)
Theorem stage_cluster_names i o a :
  synth i o = Ok a ->
  stage_cluster_name (dev a) = Some "eks-test-dev" /\
  (stage_cluster_name ∘ application) <$> pipeline_stages a =
  [Some "eks-pre-prod"; Some "eks-eks-env"].
Proof.
  unfold synth. intros H.
  destruct (app i o 0%nat) as [[a' n]|e] eqn:E; [|discriminate].
  inversion H. subst a'. clear H.
  apply app_inv in E
    as (acc & reg & cli & sd & sp & sq & _ & _ & _ & Hd & Hp & Hq & _ & Hdev & Hst & _).
  apply platform_init_inv in Hd as (_ & _ & a1 & s1 & Ha1 & ->).
  apply platform_init_inv in Hp as (_ & _ & a2 & s2 & Ha2 & ->).
  apply platform_init_inv in Hq as (_ & _ & a3 & s3 & Ha3 & ->).
  vm_compute in Ha1, Ha2, Ha3.
  inversion Ha1. inversion Ha2. inversion Ha3. subst a1 a2 a3.
  rewrite Hdev. split; [apply stage_cluster_name_configuration|].
  rewrite list_fmap_compose, Hst. cbn [fmap list_fmap].
  rewrite !stage_cluster_name_configuration. reflexivity.
Qed.

Lemma stage_cluster_names_witness :
  exists a,
    synth (example_inputs "eu-west-1") example_oracle = Ok a /\
    stage_cluster_name (dev a) = Some "eks-test-dev" /\
    (stage_cluster_name ∘ application) <$> pipeline_stages a =
    [Some "eks-pre-prod"; Some "eks-eks-env"].
Proof.
  eexists.
  refine ((fun H => conj H
             (stage_cluster_names (example_inputs "eu-west-1") example_oracle _ H))
          _).
  vm_compute. reflexivity.
Defined.

(** X21: a missing environment variable stops the synthesis at once
    with a [KeyError] that names it, the account before the region; no
    stage is composed and the remote server is not consulted. *)
Theorem missing_environment_variable i o :
  (os_environ i !! "CDK_DEFAULT_ACCOUNT" = None ->
   synth i o = Raise (KeyError "CDK_DEFAULT_ACCOUNT")) /\
  (is_Some (os_environ i !! "CDK_DEFAULT_ACCOUNT") ->
   os_environ i !! "CDK_DEFAULT_REGION" = None ->
   synth i o = Raise (KeyError "CDK_DEFAULT_REGION")).
Proof.
  unfold synth, app. split.
  - intros H. rewrite bind_unfold. unfold lift at 1, subscript at 1.
    rewrite H. reflexivity.
  - intros [acc H] Hr. rewrite bind_unfold. unfold lift at 1, subscript at 1.
    rewrite H. cbv beta iota.
    rewrite bind_unfold. unfold lift at 1, subscript at 1.
    rewrite Hr. reflexivity.
Qed.

Lemma missing_environment_variable_witness :
  synth {| os_environ := ∅; package_json := Raise OSError |} (fun _ => None) =
  Raise (KeyError "CDK_DEFAULT_ACCOUNT").
Proof.
  refine (proj1 (missing_environment_variable
                   {| os_environ := ∅; package_json := Raise OSError |} (fun _ => None)) _).
  reflexivity.
Defined.

(** X22: the pipeline of every assembly is pinned to the value that
    [package.json] lists under devDependencies / aws-cdk, converted with
    [str]: when that value is a string, as a version is, the pipeline's
    CDK version is that string. *)
Theorem pipeline_pinned_to_package_json i o a :
  synth i o = Ok a ->
  exists pj deps v,
    package_json i = Ok pj /\
    json_subscript pj "devDependencies" = Ok deps /\
    json_subscript deps "aws-cdk" = Ok v /\
    cdk_cli_version (cdk_pipeline (pipeline a)) = py_str v /\
    (forall s, v = JStr s -> cdk_cli_version (cdk_pipeline (pipeline a)) = Text s).
Proof.
  unfold synth. intros H.
  destruct (app i o 0%nat) as [[a' n]|e] eqn:E; [|discriminate].
  inversion H. subst a'. clear H.
  apply app_inv in E
    as (acc & reg & cli & sd & sp & sq & _ & _ & Hcli & _ & _ & _ & _ & _ & _ & Hv).
  unfold Pipeline._get_cdk_cli_version in Hcli.
  destruct (package_json i) as [pj|]; [|discriminate].
  destruct (json_subscript pj "devDependencies") as [deps|] eqn:Hdeps;
    [|discriminate].
  destruct (json_subscript deps "aws-cdk") as [v|] eqn:Hver; [|discriminate].
  injection Hcli as Hc. exists pj, deps, v.
  split; [reflexivity|]. split; [exact Hdeps|]. split; [exact Hver|].
  rewrite Hv, <- Hc. split; [reflexivity|].
  intros s ->. reflexivity.
Qed.

Lemma pipeline_pinned_to_package_json_witness :
  exists a,
    synth (example_inputs "eu-west-1") example_oracle = Ok a /\
    exists pj deps v,
      package_json (example_inputs "eu-west-1") = Ok pj /\
      json_subscript pj "devDependencies" = Ok deps /\
      json_subscript deps "aws-cdk" = Ok v /\
      cdk_cli_version (cdk_pipeline (pipeline a)) = py_str v /\
      (forall s, v = JStr s ->
                 cdk_cli_version (cdk_pipeline (pipeline a)) = Text s).
Proof.
  eexists.
  refine ((fun H => conj H
             (pipeline_pinned_to_package_json (example_inputs "eu-west-1")
                example_oracle _ H)) _).
  vm_compute. reflexivity.
Defined.
